(** * Payroll computation of the business finance management system

    A shallow embedding of the payroll page ([src/pages/PayrollPage.tsx]):
    the tax-rule query [fetchTaxRules], the bracket engine [calculateTax],
    the form schema [payrollSchema] and the submit handler
    [onPayrollSubmit], then the employee form and the budgets page of the
    same file, followed by the properties of the payroll specification
    that they satisfy or break.

    Numbers.  A JavaScript number is modelled twice.  [JS.number] has a
    finite value as an exact rational, next to [NaN] and the two
    infinities: rounding and the sign of zero are not modelled there, and
    it carries the statements that rounding cannot change (signs, order,
    [NaN], which fields a record gets).  [Double.number] is the binary64
    number itself, with the bracket engine repeated on it: it carries the
    statements in which the last digit matters. *)

From Stdlib Require Import QArith Qminmax Lqa Lia ZArith List Bool.
From Stdlib Require Import String Ascii Permutation DecimalString.
From Stdlib Require Import Sorted Qabs.
From Stdlib Require PrimFloat.
Import PrimFloat.PrimFloatNotations.
Import ListNotations.

Number Notation PrimFloat.float PrimFloat.parser PrimFloat.printer
  : float_scope.
#[local] Set Warnings "-inexact-float".

Local Open Scope Q_scope.

(* ------------------------------------------------------------------ *)
(** ** JavaScript numbers *)

Module JS.

Inductive number : Type :=
| NaN
| Infinity
| NegInfinity
| Fin (q : Q).

Definition Qltb (p q : Q) : bool := negb (Qle_bool q p).

(** Sign of a number that is not [NaN] and not zero. *)
Definition positive (x : number) : bool :=
  match x with
  | Infinity => true
  | Fin q => Qltb 0 q
  | _ => false
  end.

Definition is_zero (x : number) : bool :=
  match x with
  | Fin q => Qeq_bool q 0
  | _ => false
  end.

Definition signed_inf (pos : bool) : number :=
  if pos then Infinity else NegInfinity.

Definition neg (x : number) : number :=
  match x with
  | NaN => NaN
  | Infinity => NegInfinity
  | NegInfinity => Infinity
  | Fin q => Fin (- q)
  end.

(** [x + y] *)
Definition add (x y : number) : number :=
  match x, y with
  | NaN, _ | _, NaN => NaN
  | Infinity, NegInfinity | NegInfinity, Infinity => NaN
  | Infinity, _ | _, Infinity => Infinity
  | NegInfinity, _ | _, NegInfinity => NegInfinity
  | Fin p, Fin q => Fin (p + q)
  end.

(** [x - y] *)
Definition sub (x y : number) : number := add x (neg y).

(** [x * y] *)
Definition mul (x y : number) : number :=
  match x, y with
  | NaN, _ | _, NaN => NaN
  | Fin p, Fin q => Fin (p * q)
  | _, _ =>
      if is_zero x || is_zero y then NaN
      else signed_inf (Bool.eqb (positive x) (positive y))
  end.

(** [x / y] *)
Definition div (x y : number) : number :=
  match x, y with
  | NaN, _ | _, NaN => NaN
  | Fin p, Fin q =>
      if Qeq_bool q 0
      then if Qeq_bool p 0 then NaN else signed_inf (Qltb 0 p)
      else Fin (p / q)
  | Fin _, _ => Fin 0
  | _, Fin q => signed_inf (Bool.eqb (positive x) (Qle_bool 0 q))
  | _, _ => NaN
  end.

(** [x > y]: false as soon as one side is [NaN]. *)
Definition gt (x y : number) : bool :=
  match x, y with
  | NaN, _ | _, NaN => false
  | Infinity, Infinity => false
  | Infinity, _ => true
  | _, Infinity => false
  | NegInfinity, _ => false
  | _, NegInfinity => true
  | Fin p, Fin q => Qltb q p
  end.

(** [Math.min(x, y)] *)
Definition Math_min (x y : number) : number :=
  match x, y with
  | NaN, _ | _, NaN => NaN
  | NegInfinity, _ | _, NegInfinity => NegInfinity
  | Infinity, z | z, Infinity => z
  | Fin p, Fin q => Fin (if Qle_bool p q then p else q)
  end.

(** Truthiness of a number: [0] and [NaN] are falsy. *)
Definition truthy (x : number) : bool :=
  match x with
  | NaN => false
  | Fin q => negb (Qeq_bool q 0)
  | _ => true
  end.

(** [x || d] for a nullable number [x]: [null], [0] and [NaN] give [d]. *)
Definition or_else (x : option number) (d : number) : number :=
  match x with
  | Some v => if truthy v then v else d
  | None => d
  end.

(** Equality of modelled numbers, finite values up to equality of
    rationals. *)
Definition num_eq (x y : number) : Prop :=
  match x, y with
  | NaN, NaN | Infinity, Infinity | NegInfinity, NegInfinity => True
  | Fin p, Fin q => p == q
  | _, _ => False
  end.

(** [x <= y] on finite numbers; false on anything else. *)
Definition fin_le (x y : number) : Prop :=
  match x, y with
  | Fin p, Fin q => p <= q
  | _, _ => False
  end.

End JS.

Import JS.

Notation "x =n= y" := (num_eq x y) (at level 70, no associativity).

(** A column of the database ([DECIMAL]) read as a number. *)
Definition of_column (c : option Q) : option number := option_map Fin c.

(* ------------------------------------------------------------------ *)
(** ** Rows of the database, as the page types them *)

Module TaxRule.
(** [type TaxRule]; columns of [public.tax_rules].  [threshold_min],
    [threshold_max] and [is_active] are nullable in the database. *)
Record t : Type := mk {
  id : string;
  name : string;
  rate : Q;
  threshold_min : option Q;
  threshold_max : option Q;
  is_active : option bool
}.
End TaxRule.

Module Employee.
(** [type Employee], restricted to the fields the payroll run reads. *)
Record t : Type := mk {
  id : string;
  employee_id : string;
  base_salary : Q;
  hourly_rate : option Q;
  is_active : option bool
}.
End Employee.

(* ------------------------------------------------------------------ *)
(** ** The tax bracket engine *)

(** One turn of the loop of [calculateTax]. *)
Definition calculateTax_step (grossSalary : number)
    (totalTax : number) (rule : TaxRule.t) : number :=
  let min := or_else (of_column (TaxRule.threshold_min rule)) (Fin 0) in
  let max := or_else (of_column (TaxRule.threshold_max rule)) Infinity in
  if gt grossSalary min then
    let taxableAmount := sub (Math_min grossSalary max) min in
    add totalTax (mul taxableAmount (div (Fin (TaxRule.rate rule)) (Fin 100)))
  else totalTax.

(** [calculateTax]: the rules are the page state [taxRules]. *)
Definition calculateTax (taxRules : list TaxRule.t) (grossSalary : number)
    : number :=
  fold_left (calculateTax_step grossSalary) taxRules (Fin 0).

(** [fetchTaxRules]: the query
    [from('tax_rules').select('*').eq('is_active', true).order('threshold_min')]
    over the rows of the table, on its success path.  The order is
    ascending with nulls last; rows with equal keys keep their order. *)
Definition eq_is_active_true (r : TaxRule.t) : bool :=
  match TaxRule.is_active r with
  | Some true => true
  | _ => false
  end.

Definition threshold_min_le (a b : TaxRule.t) : bool :=
  match TaxRule.threshold_min a, TaxRule.threshold_min b with
  | _, None => true
  | None, Some _ => false
  | Some x, Some y => Qle_bool x y
  end.

Fixpoint order_insert (r : TaxRule.t) (rows : list TaxRule.t)
    : list TaxRule.t :=
  match rows with
  | [] => [r]
  | r' :: rows' =>
      if threshold_min_le r r' then r :: rows
      else r' :: order_insert r rows'
  end.

Definition order_threshold_min (rows : list TaxRule.t) : list TaxRule.t :=
  fold_right order_insert [] rows.

Definition fetchTaxRules (tax_rules : list TaxRule.t) : list TaxRule.t :=
  order_threshold_min (filter eq_is_active_true tax_rules).

(** The specification's [compute_tax(gross, rules)]: the engine run on the
    rules the page has fetched from the table [rules]. *)
Definition compute_tax (gross : number) (rules : list TaxRule.t) : number :=
  calculateTax (fetchTaxRules rules) gross.

(* ------------------------------------------------------------------ *)
(** ** [parseFloat] *)

Module Parse.

Local Open Scope nat_scope.

Definition is_digit (c : ascii) : bool :=
  (48 <=? nat_of_ascii c) && (nat_of_ascii c <=? 57).

Definition digit_value (c : ascii) : Z := Z.of_nat (nat_of_ascii c - 48).

(** White space and line terminators of the ASCII range. *)
Definition is_space (c : ascii) : bool :=
  let n := nat_of_ascii c in
  (n =? 32) || ((9 <=? n) && (n <=? 13)).

Fixpoint skip_space (s : string) : string :=
  match s with
  | String c s' => if is_space c then skip_space s' else s
  | EmptyString => s
  end.

(** Reads the longest run of digits: its value, its length, the rest. *)
Fixpoint read_digits (s : string) (acc : Z) (n : nat) : Z * nat * string :=
  match s with
  | String c s' =>
      if is_digit c then read_digits s' (acc * 10 + digit_value c)%Z (S n)
      else (acc, n, s)
  | EmptyString => (acc, n, s)
  end.

(** Reads an optional sign: [true] for a minus. *)
Definition read_sign (s : string) : bool * string :=
  match s with
  | String "-" s' => (true, s')
  | String "+" s' => (false, s')
  | _ => (false, s)
  end.

(** The exponent part, [0] when there is none or it has no digit. *)
Definition read_exponent (s : string) : Z :=
  match s with
  | String c s' =>
      if Ascii.eqb c "e" || Ascii.eqb c "E" then
        let (minus, s'') := read_sign s' in
        let '(v, n, _) := read_digits s'' 0%Z 0 in
        if n =? 0 then 0%Z else if minus then (- v)%Z else v
      else 0%Z
  | EmptyString => 0%Z
  end.

(** [m * 10 ^ e] *)
Definition scale10 (m e : Z) : Q :=
  if (0 <=? e)%Z then inject_Z (m * 10 ^ e)
  else Qmake m (Z.to_pos (10 ^ (- e))).

(** The longest prefix that is an unsigned decimal literal. *)
Definition read_unsigned (s : string) : option number :=
  if String.prefix "Infinity" s then Some Infinity
  else
    let '(i, ni, s1) := read_digits s 0%Z 0 in
    let '(f, nf, s2) :=
      match s1 with
      | String "." s1' => read_digits s1' 0%Z 0
      | _ => (0%Z, 0, s1)
      end in
    if (ni =? 0) && (nf =? 0) then None
    else
      let e := read_exponent s2 in
      Some (Fin (scale10 (i * 10 ^ Z.of_nat nf + f) (e - Z.of_nat nf))).

Definition parseFloat (s : string) : number :=
  let (minus, s') := read_sign (skip_space s) in
  match read_unsigned s' with
  | Some v => if minus then neg v else v
  | None => NaN
  end.

End Parse.

Import Parse.

(** [s || d] for an optional string: [undefined] and [''] give [d]. *)
Definition str_or (s : option string) (d : string) : string :=
  match s with
  | Some EmptyString | None => d
  | Some v => v
  end.

(* ------------------------------------------------------------------ *)
(** ** The payroll form and its submit handler *)

Module Values.
(** [z.infer<typeof payrollSchema>] *)
Record t : Type := mk {
  employee_id : string;
  pay_period_start : string;
  pay_period_end : string;
  hours_worked : string;
  overtime_hours : option string;
  allowances : option string;
  deductions : option string
}.
End Values.

(** [z.string().min(1, ...)] *)
Definition string_min_1 (s : string) : bool := (1 <=? String.length s)%nat.

(** [payrollSchema]: the four mandatory fields are non-empty strings, the
    other three are optional strings. *)
Definition payrollSchema (values : Values.t) : bool :=
  string_min_1 (Values.employee_id values)
  && string_min_1 (Values.pay_period_start values)
  && string_min_1 (Values.pay_period_end values)
  && string_min_1 (Values.hours_worked values).

Module PayrollData.
(** The object [payrollData] handed to the insert. *)
Record t : Type := mk {
  employee_id : string;
  pay_period_start : string;
  pay_period_end : string;
  hours_worked : number;
  overtime_hours : number;
  gross_salary : number;
  tax_deductions : number;
  deductions : number;
  allowances : number;
  net_salary : number;
  created_by : string
}.
End PayrollData.

Module Page.
(** The state the handler reads: the signed-in user, if any, and the
    component state [employees] and [taxRules]. *)
Record t : Type := mk {
  user : option string;
  employees : list Employee.t;
  taxRules : list TaxRule.t
}.
End Page.

(** Truthiness of a nullable boolean. *)
Definition truthy_flag (b : option bool) : bool :=
  match b with
  | Some true => true
  | _ => false
  end.

(** The entries of the employee selector of the payroll dialog:
    [employees.filter(e => e.is_active)]. *)
Definition employeeOptions (page : Page.t) : list Employee.t :=
  filter (fun e => truthy_flag (Employee.is_active e)) (Page.employees page).

(** [employees.find(e => e.id === values.employee_id)] *)
Definition find_employee (page : Page.t) (values : Values.t)
    : option Employee.t :=
  find (fun e => String.eqb (Employee.id e) (Values.employee_id values))
       (Page.employees page).

(** [onPayrollSubmit]: [None] when the handler returns before the insert,
    otherwise the record it inserts into [payroll_records]. *)
Definition onPayrollSubmit (page : Page.t) (values : Values.t)
    : option PayrollData.t :=
  match Page.user page with
  | None => None
  | Some user_id =>
    match find_employee page values with
    | None => None
    | Some employee =>
      let hoursWorked := parseFloat (Values.hours_worked values) in
      let overtimeHours := parseFloat (str_or (Values.overtime_hours values) "0") in
      let allowances := parseFloat (str_or (Values.allowances values) "0") in
      let deductions := parseFloat (str_or (Values.deductions values) "0") in
      let salaried := Fin (Employee.base_salary employee) in
      let grossSalary :=
        match of_column (Employee.hourly_rate employee) with
        | Some hourly_rate =>
            if truthy hourly_rate then
              let regularPay := mul hoursWorked hourly_rate in
              let overtimePay := mul (mul overtimeHours hourly_rate) (Fin (3 # 2)) in
              add regularPay overtimePay
            else salaried
        | None => salaried
        end in
      let grossSalary := add grossSalary allowances in
      let taxDeductions := calculateTax (Page.taxRules page) grossSalary in
      let netSalary := sub (sub grossSalary taxDeductions) deductions in
      Some {|
        PayrollData.employee_id := Values.employee_id values;
        PayrollData.pay_period_start := Values.pay_period_start values;
        PayrollData.pay_period_end := Values.pay_period_end values;
        PayrollData.hours_worked := hoursWorked;
        PayrollData.overtime_hours := overtimeHours;
        PayrollData.gross_salary := grossSalary;
        PayrollData.tax_deductions := taxDeductions;
        PayrollData.deductions := deductions;
        PayrollData.allowances := allowances;
        PayrollData.net_salary := netSalary;
        PayrollData.created_by := user_id
      |}
    end
  end.

(** What a submission of the payroll dialog does. *)
Inductive submission : Type :=
| Rejected                      (* the schema refuses the values *)
| Returned                      (* the handler returns without a record *)
| Inserted (d : PayrollData.t). (* the handler inserts [d] *)

(** [payrollForm.handleSubmit(onPayrollSubmit)]: the handler runs on the
    values the schema accepts. *)
Definition handleSubmit (page : Page.t) (values : Values.t) : submission :=
  if payrollSchema values then
    match onPayrollSubmit page values with
    | Some d => Inserted d
    | None => Returned
    end
  else Rejected.

(* ------------------------------------------------------------------ *)
(** ** The engine on finite amounts *)

(** The lower bound the loop uses: [rule.threshold_min || 0]. *)
Definition bracket_min (rule : TaxRule.t) : Q :=
  match TaxRule.threshold_min rule with
  | Some m => if Qeq_bool m 0 then 0 else m
  | None => 0
  end.

(** The upper bound the loop uses, [rule.threshold_max || Infinity]:
    [None] stands for [Infinity]. *)
Definition bracket_max (rule : TaxRule.t) : option Q :=
  match TaxRule.threshold_max rule with
  | Some m => if Qeq_bool m 0 then None else Some m
  | None => None
  end.

(** [Math.min(g, max)] for a finite [g]. *)
Definition capped (g : Q) (max : option Q) : Q :=
  match max with
  | Some m => if Qle_bool g m then g else m
  | None => g
  end.

(** What one rule adds to [totalTax] for the finite gross [g]. *)
Definition contribution (g : Q) (rule : TaxRule.t) : Q :=
  if Qltb (bracket_min rule) g
  then (capped g (bracket_max rule) - bracket_min rule)
       * (TaxRule.rate rule / 100)
  else 0.

Definition Qsum (l : list Q) : Q := fold_right Qplus 0 l.

(** The total of the contributions of the rules of a list. *)
Definition total_tax (g : Q) (rules : list TaxRule.t) : Q :=
  Qsum (map (contribution g) rules).

(** The loop body on a finite total, with the arithmetic of [Q]. *)
Definition step_fin (g : Q) (total : Q) (rule : TaxRule.t) : Q :=
  if Qltb (bracket_min rule) g
  then total + (capped g (bracket_max rule) - bracket_min rule)
               * (TaxRule.rate rule / 100)
  else total.

(** A rule whose rate is not negative and whose upper bound, when the
    loop uses one, is not below its lower bound. *)
Definition bracket_ordered (rule : TaxRule.t) : Prop :=
  match bracket_max rule with
  | Some m => bracket_min rule <= m
  | None => True
  end.

Definition rule_sound (rule : TaxRule.t) : Prop :=
  0 <= TaxRule.rate rule /\ bracket_ordered rule.

(** The bracket formula of the specification, the rate taken as a
    fraction of one: [(min(g, max) - min) * rate] when [g > min], else [0],
    with [min] defaulting to [0] and [max] to infinity when absent. *)
Definition spec_bracket (g : Q) (rule : TaxRule.t) : Q :=
  let min := match TaxRule.threshold_min rule with Some m => m | None => 0 end in
  let gmax := match TaxRule.threshold_max rule with
              | Some m => Qmin g m
              | None => g
              end in
  if Qltb min g then (gmax - min) * TaxRule.rate rule else 0.

Definition spec_tax (g : Q) (rules : list TaxRule.t) : Q :=
  Qsum (map (spec_bracket g) (filter eq_is_active_true rules)).

(** The rule with its upper bound erased. *)
Definition unbounded (rule : TaxRule.t) : TaxRule.t :=
  TaxRule.mk (TaxRule.id rule) (TaxRule.name rule) (TaxRule.rate rule)
             (TaxRule.threshold_min rule) None (TaxRule.is_active rule).

(** *** Sample rows *)

(** The two brackets of the additivity example of the specification. *)
Definition two_brackets : list TaxRule.t :=
  [ TaxRule.mk "r1" "first" 0.10 (Some 0) (Some 1000) (Some true);
    TaxRule.mk "r2" "second" 0.20 (Some 1000) None (Some true) ].

(** An active rule whose upper bound lies below its lower bound. *)
Definition inverted_rule : TaxRule.t :=
  TaxRule.mk "r3" "inverted" 0.10 (Some 1000) (Some 500) (Some true).

(** A rule that is switched off. *)
Definition retired_rule : TaxRule.t :=
  TaxRule.mk "r4" "retired" 0.30 (Some 0) None (Some false).

(** A top bracket stored with an upper bound of [0]. *)
Definition zero_max_rule : TaxRule.t :=
  TaxRule.mk "r5" "top" 0.20 (Some 1000) (Some 0) (Some true).

(** *** Sample employees, page and form values *)

Definition salaried_employee : Employee.t :=
  Employee.mk "e1" "EMP-001" 5000 None (Some true).

Definition hourly_employee : Employee.t :=
  Employee.mk "e2" "EMP-002" 5000 (Some 20) (Some true).

Definition inactive_employee : Employee.t :=
  Employee.mk "e3" "EMP-003" 5000 None (Some false).

Definition zero_rate_employee : Employee.t :=
  Employee.mk "e4" "EMP-004" 5000 (Some 0) (Some true).

(** A page with a signed-in user, the four employees above and the rules
    fetched from a table holding the two brackets. *)
Definition sample_page : Page.t :=
  Page.mk (Some "u1"%string)
          [salaried_employee; hourly_employee; inactive_employee;
           zero_rate_employee]
          (fetchTaxRules two_brackets).

(** The form filled in for October 2025. *)
Definition october (employee hours overtime allowances deductions : string)
    : Values.t :=
  Values.mk employee "2025-10-01" "2025-10-31" hours
            (Some overtime) (Some allowances) (Some deductions).

(** The same form values with other hours. *)
Definition with_hours (values : Values.t) (hours : string)
    (overtime : option string) : Values.t :=
  Values.mk (Values.employee_id values) (Values.pay_period_start values)
            (Values.pay_period_end values) hours overtime
            (Values.allowances values) (Values.deductions values).

(** The same form values with other deductions. *)
Definition with_deductions (values : Values.t) (deductions : option string)
    : Values.t :=
  Values.mk (Values.employee_id values) (Values.pay_period_start values)
            (Values.pay_period_end values) (Values.hours_worked values)
            (Values.overtime_hours values) (Values.allowances values)
            deductions.

(* ------------------------------------------------------------------ *)
(** ** [Number(s)] on strings *)

Module ToNumber.

Local Open Scope nat_scope.

(** The white space the language strips that takes two or three bytes in
    the encoding of the string: U+00A0; U+1680, U+2000 to U+200A, U+2028,
    U+2029, U+202F, U+205F, U+3000 and U+FEFF. *)
Definition is_space2 (c1 c2 : ascii) : bool :=
  (nat_of_ascii c1 =? 194) && (nat_of_ascii c2 =? 160).

Definition is_space3 (c1 c2 c3 : ascii) : bool :=
  let n1 := nat_of_ascii c1 in
  let n2 := nat_of_ascii c2 in
  let n3 := nat_of_ascii c3 in
  ((n1 =? 225) && (n2 =? 154) && (n3 =? 128))
  || ((n1 =? 226) && (n2 =? 128)
      && (((128 <=? n3) && (n3 <=? 138))
          || (n3 =? 168) || (n3 =? 169) || (n3 =? 175)))
  || ((n1 =? 226) && (n2 =? 129) && (n3 =? 159))
  || ((n1 =? 227) && (n2 =? 128) && (n3 =? 128))
  || ((n1 =? 239) && (n2 =? 187) && (n3 =? 191)).

Fixpoint skip_white (s : string) : string :=
  match s with
  | EmptyString => s
  | String c1 s1 =>
      if is_space c1 then skip_white s1
      else
        match s1 with
        | EmptyString => s
        | String c2 s2 =>
            if is_space2 c1 c2 then skip_white s2
            else
              match s2 with
              | EmptyString => s
              | String c3 s3 =>
                  if is_space3 c1 c2 c3 then skip_white s3 else s
              end
        end
  end.

Definition all_space (s : string) : bool :=
  match skip_white s with
  | EmptyString => true
  | _ => false
  end.

(** A finite value brought into the range of binary64: what rounds to [0]
    is [0], what rounds beyond the largest number is an infinity. *)
Definition to_range (q : Q) : number :=
  if Qle_bool (Qabs q) (1 # (2 ^ 1075))%Q then Fin 0
  else if Qle_bool (inject_Z (2 ^ 1024 - 2 ^ 970)) (Qabs q)
       then signed_inf (Qle_bool 0 q)
       else Fin q.

(** The exponent part and what follows it; there is no exponent part when
    the [e] is followed by no digit. *)
Definition read_exponent_rest (s : string) : Z * string :=
  match s with
  | String c s' =>
      if Ascii.eqb c "e" || Ascii.eqb c "E" then
        let (minus, s'') := read_sign s' in
        let '(v, n, rest) := read_digits s'' 0%Z 0 in
        if n =? 0 then (0%Z, s)
        else (if minus then (- v)%Z else v, rest)
      else (0%Z, s)
  | EmptyString => (0%Z, s)
  end.

(** The longest prefix that is an unsigned decimal literal, with what
    follows it. *)
Definition read_unsigned_rest (s : string) : option (number * string) :=
  if String.prefix "Infinity" s
  then Some (Infinity, String.substring 8 (String.length s - 8) s)
  else
    let '(i, ni, s1) := read_digits s 0%Z 0 in
    let '(f, nf, s2) :=
      match s1 with
      | String "." s1' => read_digits s1' 0%Z 0
      | _ => (0%Z, 0, s1)
      end in
    if (ni =? 0) && (nf =? 0) then None
    else
      let (e, rest) := read_exponent_rest s2 in
      Some (to_range (scale10 (i * 10 ^ Z.of_nat nf + f) (e - Z.of_nat nf)),
            rest).

(** The base a prefix [0x], [0o] or [0b] announces. *)
Definition base_of (c : ascii) : option Z :=
  if Ascii.eqb c "x" || Ascii.eqb c "X" then Some 16%Z
  else if Ascii.eqb c "o" || Ascii.eqb c "O" then Some 8%Z
  else if Ascii.eqb c "b" || Ascii.eqb c "B" then Some 2%Z
  else None.

Definition digit_in_base (base : Z) (c : ascii) : option Z :=
  let n := nat_of_ascii c in
  let v :=
    if (48 <=? n) && (n <=? 57) then Some (Z.of_nat (n - 48))
    else if (97 <=? n) && (n <=? 102) then Some (Z.of_nat (n - 87))
    else if (65 <=? n) && (n <=? 70) then Some (Z.of_nat (n - 55))
    else None in
  match v with
  | Some d => if (d <? base)%Z then Some d else None
  | None => None
  end.

Fixpoint read_base (base : Z) (s : string) (acc : Z) (n : nat)
    : Z * nat * string :=
  match s with
  | String c s' =>
      match digit_in_base base c with
      | Some d => read_base base s' (acc * base + d)%Z (S n)
      | None => (acc, n, s)
      end
  | EmptyString => (acc, n, s)
  end.

(** A hexadecimal, octal or binary integer literal: [None] when the string
    does not start with one of the three prefixes. *)
Definition read_prefixed (s : string) : option number :=
  match s with
  | String "0" (String c s') =>
      match base_of c with
      | Some base =>
          let '(v, n, rest) := read_base base s' 0%Z 0 in
          Some (if (0 <? n) && all_space rest then to_range (inject_Z v)
                else NaN)
      | None => None
      end
  | _ => None
  end.

(** [Number(s)]: white space around the literal is dropped, the empty
    string is [0], and anything that is not one whole numeric literal is
    [NaN]. *)
Definition toNumber (s : string) : number :=
  let t := skip_white s in
  match t with
  | EmptyString => Fin 0
  | _ =>
      match read_prefixed t with
      | Some v => v
      | None =>
          let (minus, t') := read_sign t in
          match read_unsigned_rest t' with
          | Some (v, rest) =>
              if all_space rest then (if minus then neg v else v) else NaN
          | None => NaN
          end
      end
  end.

End ToNumber.

Import ToNumber.

(** [isNaN(x)] on a number. *)
Definition isNaN (x : number) : bool :=
  match x with
  | NaN => true
  | _ => false
  end.

(* ------------------------------------------------------------------ *)
(** ** The budgets page *)

(** [z.enum(["department", "project"])] *)
Inductive budget_type : Type :=
| department
| project.

Definition budget_type_eqb (a b : budget_type) : bool :=
  match a, b with
  | department, department | project, project => true
  | _, _ => false
  end.

(** The length of a string as the language counts it, in UTF-16 units, the
    string being held in its UTF-8 encoding: a byte that continues a
    character counts nothing, the first byte of a character of four bytes
    counts two, every other byte one. *)
Fixpoint utf16_length (s : string) : nat :=
  match s with
  | EmptyString => 0%nat
  | String c s' =>
      let n := nat_of_ascii c in
      ((if (128 <=? n) && (n <? 192) then 0
        else if 240 <=? n then 2
        else 1) + utf16_length s')%nat
  end.

(** A property of an object sent to the database: [null], [undefined] or a
    string. *)
Inductive field : Type :=
| Null
| Undefined
| Text (s : string).

(** An optional string as a property: absent is [undefined]. *)
Definition optional (s : option string) : field :=
  match s with
  | Some v => Text v
  | None => Undefined
  end.

(** [!s] for an optional string: true on [undefined] and on ['']. *)
Definition str_falsy (s : option string) : bool :=
  match s with
  | Some EmptyString | None => true
  | Some _ => false
  end.


(** [x >= y]: false as soon as one side is [NaN]. *)
Definition geq (x y : number) : bool :=
  match x, y with
  | NaN, _ | _, NaN => false
  | Infinity, _ => true
  | _, NegInfinity => true
  | _, Infinity => false
  | NegInfinity, _ => false
  | Fin p, Fin q => Qle_bool q p
  end.

Module BudgetFormData.
(** [z.infer<typeof budgetSchema>] *)
Record t : Type := mk {
  name : string;
  amount : string;
  period_start : string;
  period_end : string;
  type : budget_type;
  department_id : option string;
  project_id : option string
}.
End BudgetFormData.

Module Budget.
(** [interface Budget]: a row of [public.budgets] with the expenses the
    page adds to it. *)
Record t : Type := mk {
  id : string;
  name : string;
  amount : Q;
  period_start : string;
  period_end : string;
  department_id : option string;
  project_id : option string;
  actual_expenses : option number
}.
End Budget.

Module BudgetData.
(** The object [budgetData] handed to the insert or the update. *)
Record t : Type := mk {
  name : string;
  amount : number;
  period_start : string;
  period_end : string;
  department_id : field;
  project_id : field;
  created_by : string
}.
End BudgetData.

Module Budgets.

(** The refinement of [amount]:
    [!isNaN(Number(val)) && Number(val) > 0]. *)
Definition amount_refine (val : string) : bool :=
  negb (isNaN (toNumber val)) && gt (toNumber val) (Fin 0).

(** The refinement of the whole object: the id that goes with the type
    must be there. *)
Definition owner_refine (data : BudgetFormData.t) : bool :=
  if budget_type_eqb (BudgetFormData.type data) department
     && str_falsy (BudgetFormData.department_id data) then false
  else if budget_type_eqb (BudgetFormData.type data) project
          && str_falsy (BudgetFormData.project_id data) then false
  else true.

(** [budgetSchema] *)
Definition budgetSchema (data : BudgetFormData.t) : bool :=
  string_min_1 (BudgetFormData.name data)
  && (utf16_length (BudgetFormData.name data) <=? 100)%nat
  && string_min_1 (BudgetFormData.amount data)
  && amount_refine (BudgetFormData.amount data)
  && string_min_1 (BudgetFormData.period_start data)
  && string_min_1 (BudgetFormData.period_end data)
  && owner_refine data.

(** What [onSubmit] sends to the table [budgets]. *)
Inductive write : Type :=
| Update (id : string) (data : BudgetData.t)
| Insert (data : BudgetData.t).

(** [onSubmit]: [None] when nobody is signed in; otherwise the update of
    the budget being edited, or the insert of a new one. *)
Definition onSubmit (user : option string) (editingBudget : option Budget.t)
    (data : BudgetFormData.t) : option write :=
  match user with
  | None => None
  | Some user_id =>
      let budgetData := {|
        BudgetData.name := BudgetFormData.name data;
        BudgetData.amount := toNumber (BudgetFormData.amount data);
        BudgetData.period_start := BudgetFormData.period_start data;
        BudgetData.period_end := BudgetFormData.period_end data;
        BudgetData.department_id :=
          match BudgetFormData.type data with
          | department => optional (BudgetFormData.department_id data)
          | project => Null
          end;
        BudgetData.project_id :=
          match BudgetFormData.type data with
          | project => optional (BudgetFormData.project_id data)
          | department => Null
          end;
        BudgetData.created_by := user_id
      |} in
      match editingBudget with
      | Some budget => Some (Update (Budget.id budget) budgetData)
      | None => Some (Insert budgetData)
      end
  end.

(** [form.handleSubmit(onSubmit)]: [None] when the schema refuses the
    data. *)
Definition handleSubmit (user : option string) (editingBudget : option Budget.t)
    (data : BudgetFormData.t) : option (option write) :=
  if budgetSchema data then Some (onSubmit user editingBudget data) else None.

Section Edit.

(** [Number.prototype.toString], which the page takes from the language. *)
Variable toString : number -> string.


End Edit.

(** [getUtilizationColor] *)
Definition getUtilizationColor (percentage : number) : string :=
  if geq percentage (Fin 90) then "text-red-600"
  else if geq percentage (Fin 75) then "text-orange-600"
  else "text-green-600".

(** The three amounts of a row of the budget table. *)
Definition spent (budget : Budget.t) : number :=
  or_else (Budget.actual_expenses budget) (Fin 0).


Definition utilization (budget : Budget.t) : number :=
  mul (div (spent budget) (Fin (Budget.amount budget))) (Fin 100).


End Budgets.

(** *** Sample budgets *)

(** The digits after the decimal point of [r / d], at most [fuel] of
    them. *)
Fixpoint fraction_digits (fuel : nat) (r d : Z) : string :=
  match fuel with
  | O => EmptyString
  | S fuel' =>
      if (r =? 0)%Z then EmptyString
      else String.append
             (NilZero.string_of_uint (N.to_uint (Z.to_N (r * 10 / d))))
             (fraction_digits fuel' ((r * 10) mod d)%Z d)
  end.

(** A printer of numbers in the manner of [toString] for the decimals the
    tables hold: sign, digits, and the digits of the fraction if there is
    one, without exponent; a fraction that does not end is cut after twenty
    digits. *)
Definition decimal_toString (x : number) : string :=
  match x with
  | NaN => "NaN"
  | Infinity => "Infinity"
  | NegInfinity => "-Infinity"
  | Fin q =>
      let n := Z.abs (Qnum q) in
      let d := Zpos (Qden q) in
      let whole := NilZero.string_of_uint (N.to_uint (Z.to_N (n / d))) in
      let fraction := fraction_digits 20 (n mod d)%Z d in
      String.append (if (Qnum q <? 0)%Z then "-" else "")
        (String.append whole
           match fraction with
           | EmptyString => EmptyString
           | _ => String "." fraction
           end)
  end.



Definition empty_budget : Budget.t :=
  Budget.mk "b3" "Empty" 0 "2025-01-01" "2025-12-31"
            (Some "dep-1"%string) None (Some (Fin 40)).

Definition new_budget_form : BudgetFormData.t :=
  BudgetFormData.mk "Q2 Marketing" "12000.50" "2025-04-01" "2025-06-30"
                    department (Some "dep-1"%string) None.

(** The object a write carries. *)
Definition written (w : Budgets.write) : BudgetData.t :=
  match w with
  | Budgets.Update _ data => data
  | Budgets.Insert data => data
  end.

(* ------------------------------------------------------------------ *)
(** ** The employee form *)

Module EmployeeRow.
(** [type Employee] with all its fields. *)
Record t : Type := mk {
  id : string;
  employee_id : string;
  first_name : string;
  last_name : string;
  email : string;
  position : option string;
  department_id : option string;
  hire_date : string;
  base_salary : Q;
  hourly_rate : option Q;
  is_active : option bool;
  bank_account : option string;
  tax_id : option string
}.
End EmployeeRow.

Module EmployeeValues.
(** [z.infer<typeof employeeSchema>] *)
Record t : Type := mk {
  employee_id : string;
  first_name : string;
  last_name : string;
  email : string;
  position : option string;
  department_id : option string;
  hire_date : string;
  base_salary : string;
  hourly_rate : option string;
  bank_account : option string;
  tax_id : option string
}.
End EmployeeValues.

Module EmployeeData.
(** The object [employeeData] handed to the insert or the update. *)
Record t : Type := mk {
  employee_id : string;
  first_name : string;
  last_name : string;
  email : string;
  position : option string;
  department_id : option string;
  hire_date : string;
  base_salary : number;
  hourly_rate : option number;
  bank_account : option string;
  tax_id : option string
}.
End EmployeeData.

(** [s || null] for an optional string: [None] is [null]. *)
Definition or_null (s : option string) : option string :=
  if str_falsy s then None else s.

(** What [onEmployeeSubmit] sends to the table [employees]. *)
Inductive employee_write : Type :=
| UpdateEmployee (id : string) (data : EmployeeData.t)
| InsertEmployee (data : EmployeeData.t).

(** [onEmployeeSubmit]: [None] when nobody is signed in; otherwise the
    update of the employee being edited, or the insert of a new one. *)
Definition onEmployeeSubmit (user : option string)
    (editingEmployee : option EmployeeRow.t) (values : EmployeeValues.t)
    : option employee_write :=
  match user with
  | None => None
  | Some _ =>
      let employeeData := {|
        EmployeeData.employee_id := EmployeeValues.employee_id values;
        EmployeeData.first_name := EmployeeValues.first_name values;
        EmployeeData.last_name := EmployeeValues.last_name values;
        EmployeeData.email := EmployeeValues.email values;
        EmployeeData.position := or_null (EmployeeValues.position values);
        EmployeeData.department_id :=
          or_null (EmployeeValues.department_id values);
        EmployeeData.hire_date := EmployeeValues.hire_date values;
        EmployeeData.base_salary :=
          parseFloat (EmployeeValues.base_salary values);
        EmployeeData.hourly_rate :=
          match EmployeeValues.hourly_rate values with
          | Some (String c s) => Some (parseFloat (String c s))
          | _ => None
          end;
        EmployeeData.bank_account :=
          or_null (EmployeeValues.bank_account values);
        EmployeeData.tax_id := or_null (EmployeeValues.tax_id values)
      |} in
      match editingEmployee with
      | Some employee =>
          Some (UpdateEmployee (EmployeeRow.id employee) employeeData)
      | None => Some (InsertEmployee employeeData)
      end
  end.

Section EditEmployee.

(** [Number.prototype.toString], which the page takes from the language. *)
Variable toString : number -> string.

(** [handleEditEmployee]: the values the form is reset to; the employee
    itself becomes [editingEmployee]. *)
Definition handleEditEmployee (employee : EmployeeRow.t) : EmployeeValues.t :=
  {|
    EmployeeValues.employee_id := EmployeeRow.employee_id employee;
    EmployeeValues.first_name := EmployeeRow.first_name employee;
    EmployeeValues.last_name := EmployeeRow.last_name employee;
    EmployeeValues.email := EmployeeRow.email employee;
    EmployeeValues.position :=
      Some (str_or (EmployeeRow.position employee) "");
    EmployeeValues.department_id :=
      Some (str_or (EmployeeRow.department_id employee) "");
    EmployeeValues.hire_date := EmployeeRow.hire_date employee;
    EmployeeValues.base_salary :=
      toString (Fin (EmployeeRow.base_salary employee));
    EmployeeValues.hourly_rate :=
      Some (str_or (option_map (fun r => toString (Fin r))
                               (EmployeeRow.hourly_rate employee)) "");
    EmployeeValues.bank_account :=
      Some (str_or (EmployeeRow.bank_account employee) "");
    EmployeeValues.tax_id := Some (str_or (EmployeeRow.tax_id employee) "")
  |}.

End EditEmployee.

Section EmployeeSchema.

(** The address test of [z.string().email()], which the page takes from
    the validation library. *)
Variable is_email : string -> bool.

(** [employeeSchema]: five mandatory texts, of which the email must be an
    address; the other fields are optional strings. *)
Definition employeeSchema (values : EmployeeValues.t) : bool :=
  string_min_1 (EmployeeValues.employee_id values)
  && string_min_1 (EmployeeValues.first_name values)
  && string_min_1 (EmployeeValues.last_name values)
  && is_email (EmployeeValues.email values)
  && string_min_1 (EmployeeValues.hire_date values)
  && string_min_1 (EmployeeValues.base_salary values).

(** [employeeForm.handleSubmit(onEmployeeSubmit)]: [None] when the schema
    refuses the values. *)
Definition handleEmployeeSubmit (user : option string)
    (editingEmployee : option EmployeeRow.t) (values : EmployeeValues.t)
    : option (option employee_write) :=
  if employeeSchema values
  then Some (onEmployeeSubmit user editingEmployee values)
  else None.

End EmployeeSchema.

(** *** A sample row *)

(** A stand-in for the address test, enough for the sample row: the text
    holds an [@]. *)
Fixpoint has_at (s : string) : bool :=
  match s with
  | EmptyString => false
  | String c s' => Ascii.eqb c "@" || has_at s'
  end.


Definition sample_row : EmployeeRow.t :=
  EmployeeRow.mk "e5" "EMP-005" "Thandi" "Nkosi" "thandi@example.com"
                 (Some ""%string) None "2024-02-01" 32500.50 (Some 0)
                 (Some true) (Some "1234567890"%string) None.

(* ------------------------------------------------------------------ *)
(** ** The engine on binary64 numbers *)

(** The numbers of the running code are IEEE binary64 values, whose sums,
    products and quotients round.  [Double] is the loop of [calculateTax]
    once more, on these numbers; the rows stay the decimals of the
    database. *)

Module Double.

Definition number : Set := PrimFloat.float.

Definition Infinity : number := PrimFloat.infinity.

Definition NaN : number := PrimFloat.nan.

Fixpoint of_pos (p : BinNums.positive) : number :=
  match p with
  | xH => 1%float
  | xO p' => (2 * of_pos p')%float
  | xI p' => (2 * of_pos p' + 1)%float
  end.

Definition of_Z (z : Z) : number :=
  match z with
  | Z0 => 0%float
  | Zpos p => of_pos p
  | Zneg p => (- of_pos p)%float
  end.

(** A decimal of the database read as a number: the binary64 value nearest
    to it.  Numerator and denominator are taken over exactly as long as
    they are below [2^53], which holds of every [DECIMAL(15,2)] and
    [DECIMAL(5,4)] value, and the quotient rounds to nearest. *)
Definition of_decimal (q : Q) : number :=
  (of_Z (Qnum q) / of_Z (Zpos (Qden q)))%float.

Definition of_column (c : option Q) : option number :=
  option_map of_decimal c.

(** Truthiness of a number: [0], [-0] and [NaN] are falsy. *)
Definition truthy (x : number) : bool :=
  negb ((x =? 0)%float || PrimFloat.is_nan x).

(** [x || d] for a nullable number. *)
Definition or_else (x : option number) (d : number) : number :=
  match x with
  | Some v => if truthy v then v else d
  | None => d
  end.

(** [x > y] *)
Definition gt (x y : number) : bool := (y <? x)%float.

Definition negative_zero (x : number) : bool :=
  ((x =? 0) && (1 / x <? 0))%float.

(** [Math.min(x, y)]: [NaN] if one side is, and [-0] below [0]. *)
Definition Math_min (x y : number) : number :=
  if PrimFloat.is_nan x || PrimFloat.is_nan y then NaN
  else if (x <? y)%float then x
  else if (y <? x)%float then y
  else if negative_zero x then x else y.

(** One turn of the loop of [calculateTax]. *)
Definition calculateTax_step (grossSalary : number)
    (totalTax : number) (rule : TaxRule.t) : number :=
  let min := or_else (of_column (TaxRule.threshold_min rule)) 0%float in
  let max := or_else (of_column (TaxRule.threshold_max rule)) Infinity in
  if gt grossSalary min then
    let taxableAmount := (Math_min grossSalary max - min)%float in
    (totalTax + taxableAmount * (of_decimal (TaxRule.rate rule) / 100))%float
  else totalTax.

(** [calculateTax] *)
Definition calculateTax (taxRules : list TaxRule.t) (grossSalary : number)
    : number :=
  fold_left (calculateTax_step grossSalary) taxRules 0%float.

(** The engine run on the rules the page has fetched. *)
Definition compute_tax (gross : number) (rules : list TaxRule.t) : number :=
  calculateTax (fetchTaxRules rules) gross.


Definition contribution (grossSalary : number) (rule : TaxRule.t) : number :=
  let min := or_else (of_column (TaxRule.threshold_min rule)) 0%float in
  let max := or_else (of_column (TaxRule.threshold_max rule)) Infinity in
  ((Math_min grossSalary max - min)
   * (of_decimal (TaxRule.rate rule) / 100))%float.



End Double.





(* ------------------------------------------------------------------ *)
(** ** Lemmas on the engine *)

#[global] Instance num_eq_equiv : Equivalence num_eq.
Proof.
  split.
  - intros [| | | p]; simpl; auto with qarith.
  - intros [| | | p] [| | | q]; simpl; auto with qarith.
  - intros [| | | p] [| | | q] [| | | r]; simpl; try tauto.
    apply Qeq_trans.
Qed.

Lemma Qltb_true (p q : Q) : Qltb p q = true <-> p < q.
Proof.
  unfold Qltb. rewrite negb_true_iff.
  destruct (Qle_bool q p) eqn:E.
  - apply Qle_bool_iff in E. split; [discriminate | intro H; lra].
  - split; [intros _ | reflexivity].
    destruct (Qlt_le_dec p q) as [H | H]; [exact H |].
    apply Qle_bool_iff in H. congruence.
Qed.

Lemma Qltb_false (p q : Q) : Qltb p q = false <-> q <= p.
Proof.
  unfold Qltb. rewrite negb_false_iff. apply Qle_bool_iff.
Qed.

Lemma or_else_min (rule : TaxRule.t) :
  or_else (of_column (TaxRule.threshold_min rule)) (Fin 0)
  = Fin (bracket_min rule).
Proof.
  unfold bracket_min. destruct (TaxRule.threshold_min rule) as [m |]; simpl.
  - destruct (Qeq_bool m 0); reflexivity.
  - reflexivity.
Qed.

Lemma or_else_max (rule : TaxRule.t) :
  or_else (of_column (TaxRule.threshold_max rule)) Infinity
  = match bracket_max rule with Some m => Fin m | None => Infinity end.
Proof.
  unfold bracket_max. destruct (TaxRule.threshold_max rule) as [m |]; simpl.
  - destruct (Qeq_bool m 0); reflexivity.
  - reflexivity.
Qed.

(** *** The loop on a finite gross *)

Section FiniteGross.

Variable g : Q.

(** The loop body maps finite totals to finite totals. *)
Lemma calculateTax_step_fin (total : Q) (rule : TaxRule.t) :
  calculateTax_step (Fin g) (Fin total) rule = Fin (step_fin g total rule).
Proof.
  unfold calculateTax_step, step_fin.
  rewrite or_else_min, or_else_max. simpl gt.
  destruct (Qltb (bracket_min rule) g); [| reflexivity].
  destruct (bracket_max rule) as [m |]; reflexivity.
Qed.

Lemma fold_calculateTax_fin (rules : list TaxRule.t) :
  forall total,
    fold_left (calculateTax_step (Fin g)) rules (Fin total)
    = Fin (fold_left (step_fin g) rules total).
Proof.
  induction rules as [| rule rules IH]; intro total; simpl.
  - reflexivity.
  - rewrite calculateTax_step_fin. apply IH.
Qed.

Lemma step_fin_contribution (total : Q) (rule : TaxRule.t) :
  step_fin g total rule == total + contribution g rule.
Proof.
  unfold step_fin, contribution.
  destruct (Qltb (bracket_min rule) g); lra.
Qed.

Lemma fold_step_fin_total (rules : list TaxRule.t) :
  forall total,
    fold_left (step_fin g) rules total == total + total_tax g rules.
Proof.
  unfold total_tax.
  induction rules as [| rule rules IH]; intro total; simpl.
  - lra.
  - rewrite IH, step_fin_contribution. lra.
Qed.

(** On a finite gross the engine returns the finite total of the
    contributions of its rules. *)
Lemma calculateTax_total (rules : list TaxRule.t) :
  exists t, calculateTax rules (Fin g) = Fin t /\ t == total_tax g rules.
Proof.
  exists (fold_left (step_fin g) rules 0). split.
  - apply fold_calculateTax_fin.
  - rewrite fold_step_fin_total. lra.
Qed.

End FiniteGross.

(** *** Order of the rules *)

Lemma Qsum_perm (l1 l2 : list Q) :
  Permutation l1 l2 -> Qsum l1 == Qsum l2.
Proof.
  induction 1 as [| x l l' _ IH | x y l | l l' l'' _ IH1 _ IH2]; simpl.
  - reflexivity.
  - rewrite IH. reflexivity.
  - lra.
  - rewrite IH1. exact IH2.
Qed.

Lemma total_tax_perm (g : Q) (rules1 rules2 : list TaxRule.t) :
  Permutation rules1 rules2 -> total_tax g rules1 == total_tax g rules2.
Proof.
  intro H. unfold total_tax. apply Qsum_perm, Permutation_map, H.
Qed.

Lemma order_insert_perm (r : TaxRule.t) (rows : list TaxRule.t) :
  Permutation (order_insert r rows) (r :: rows).
Proof.
  induction rows as [| r' rows IH]; simpl.
  - apply Permutation_refl.
  - destruct (threshold_min_le r r').
    + apply Permutation_refl.
    + apply perm_trans with (r' :: r :: rows).
      * apply perm_skip, IH.
      * apply perm_swap.
Qed.

Lemma order_threshold_min_perm (rows : list TaxRule.t) :
  Permutation (order_threshold_min rows) rows.
Proof.
  induction rows as [| r rows IH]; simpl.
  - apply perm_nil.
  - apply perm_trans with (r :: order_threshold_min rows).
    + apply order_insert_perm.
    + apply perm_skip, IH.
Qed.


(** The fetched rules are the active rows of the table, in some order. *)
Lemma fetchTaxRules_perm (rules : list TaxRule.t) :
  Permutation (fetchTaxRules rules) (filter eq_is_active_true rules).
Proof. apply order_threshold_min_perm. Qed.

Lemma fetchTaxRules_In (rules : list TaxRule.t) (r : TaxRule.t) :
  In r (fetchTaxRules rules)
  <-> In r rules /\ TaxRule.is_active r = Some true.
Proof.
  split.
  - intro H. apply (Permutation_in _ (fetchTaxRules_perm rules)) in H.
    apply filter_In in H. destruct H as [H1 H2]. split; [exact H1 |].
    unfold eq_is_active_true in H2.
    destruct (TaxRule.is_active r) as [[|] |]; congruence.
  - intros [H1 H2].
    apply (Permutation_in _ (Permutation_sym (fetchTaxRules_perm rules))).
    apply filter_In. split; [exact H1 |].
    unfold eq_is_active_true. rewrite H2. reflexivity.
Qed.

(** [compute_tax] on a finite gross: the total over the active rows. *)
Lemma compute_tax_total (g : Q) (rules : list TaxRule.t) :
  exists t, compute_tax (Fin g) rules = Fin t
            /\ t == total_tax g (filter eq_is_active_true rules).
Proof.
  unfold compute_tax.
  destruct (calculateTax_total g (fetchTaxRules rules)) as [t [E H]].
  exists t. split; [exact E |].
  rewrite H. apply total_tax_perm, fetchTaxRules_perm.
Qed.

(** *** Sign and growth of a contribution *)

Lemma rate_fraction_nonneg (rule : TaxRule.t) :
  0 <= TaxRule.rate rule -> 0 <= TaxRule.rate rule / 100.
Proof.
  intro H. unfold Qdiv. change (/ 100) with (1 # 100). lra.
Qed.

Lemma capped_le (g : Q) (max : option Q) : capped g max <= g.
Proof.
  destruct max as [m |]; simpl; [| lra].
  destruct (Qle_bool g m) eqn:E; [lra |].
  destruct (Qlt_le_dec m g) as [H | H]; [lra |].
  apply Qle_bool_iff in H. congruence.
Qed.

Lemma capped_mono (g1 g2 : Q) (max : option Q) :
  g1 <= g2 -> capped g1 max <= capped g2 max.
Proof.
  intro H. destruct max as [m |]; simpl; [| exact H].
  destruct (Qle_bool g1 m) eqn:E1, (Qle_bool g2 m) eqn:E2;
    try apply Qle_bool_iff in E1; try apply Qle_bool_iff in E2; try lra.
  destruct (Qlt_le_dec m g1) as [H1 | H1]; [lra |].
  apply Qle_bool_iff in H1. congruence.
Qed.

Lemma capped_above_min (g : Q) (rule : TaxRule.t) :
  bracket_ordered rule -> bracket_min rule < g ->
  bracket_min rule <= capped g (bracket_max rule).
Proof.
  unfold bracket_ordered. intros Ho Hg.
  destruct (bracket_max rule) as [m |]; simpl; [| lra].
  destruct (Qle_bool g m); lra.
Qed.

Lemma contribution_nonneg (g : Q) (rule : TaxRule.t) :
  rule_sound rule -> 0 <= contribution g rule.
Proof.
  intros [Hr Ho]. unfold contribution.
  destruct (Qltb (bracket_min rule) g) eqn:E; [| lra].
  apply Qltb_true in E.
  pose proof (capped_above_min g rule Ho E).
  pose proof (rate_fraction_nonneg rule Hr).
  nra.
Qed.

Lemma contribution_mono (g1 g2 : Q) (rule : TaxRule.t) :
  rule_sound rule -> g1 <= g2 ->
  contribution g1 rule <= contribution g2 rule.
Proof.
  intros Hs Hg. pose proof (contribution_nonneg g2 rule Hs) as Hpos.
  destruct Hs as [Hr Ho]. unfold contribution in *.
  destruct (Qltb (bracket_min rule) g1) eqn:E1.
  - apply Qltb_true in E1.
    assert (E2 : Qltb (bracket_min rule) g2 = true)
      by (apply Qltb_true; lra).
    rewrite E2.
    pose proof (capped_mono g1 g2 (bracket_max rule) Hg).
    pose proof (rate_fraction_nonneg rule Hr).
    nra.
  - exact Hpos.
Qed.

Lemma total_tax_nonneg (g : Q) (rules : list TaxRule.t) :
  Forall rule_sound rules -> 0 <= total_tax g rules.
Proof.
  unfold total_tax. induction 1 as [| r rules Hr _ IH]; simpl.
  - lra.
  - pose proof (contribution_nonneg g r Hr). lra.
Qed.

Lemma total_tax_mono (g1 g2 : Q) (rules : list TaxRule.t) :
  Forall rule_sound rules -> g1 <= g2 ->
  total_tax g1 rules <= total_tax g2 rules.
Proof.
  unfold total_tax. intros H Hg.
  induction H as [| r rules Hr _ IH]; simpl.
  - lra.
  - pose proof (contribution_mono g1 g2 r Hr Hg). lra.
Qed.

Lemma active_sound_Forall (rules : list TaxRule.t) :
  (forall r, In r rules -> TaxRule.is_active r = Some true -> rule_sound r) ->
  Forall rule_sound (filter eq_is_active_true rules).
Proof.
  intro H. apply Forall_forall. intros r Hin.
  apply filter_In in Hin. destruct Hin as [Hin Ha].
  apply H; [exact Hin |].
  unfold eq_is_active_true in Ha.
  destruct (TaxRule.is_active r) as [[|] |]; congruence.
Qed.

Lemma no_active_rule (rules : list TaxRule.t) :
  (forall r, In r rules -> TaxRule.is_active r <> Some true) ->
  filter eq_is_active_true rules = [].
Proof.
  intro H. induction rules as [| r rules IH]; simpl; [reflexivity |].
  unfold eq_is_active_true at 1.
  destruct (TaxRule.is_active r) as [[|] |] eqn:E.
  - destruct (H r (or_introl eq_refl) E).
  - apply IH. intros r' Hin. apply H. right. exact Hin.
  - apply IH. intros r' Hin. apply H. right. exact Hin.
Qed.

Lemma Qsum_app (l1 l2 : list Q) : Qsum (l1 ++ l2) == Qsum l1 + Qsum l2.
Proof.
  induction l1 as [| x l1 IH]; simpl; [| rewrite IH]; lra.
Qed.

Lemma total_tax_app (g : Q) (rules1 rules2 : list TaxRule.t) :
  total_tax g (rules1 ++ rules2) == total_tax g rules1 + total_tax g rules2.
Proof. unfold total_tax. rewrite map_app. apply Qsum_app. Qed.

Lemma num_eq_fin (x y : number) (p q : Q) :
  x = Fin p -> y = Fin q -> p == q -> x =n= y.
Proof. intros -> -> H. exact H. Qed.

(** *** The engine against the formula of the specification *)

Lemma Qltb_compat (p p' q : Q) : p == p' -> Qltb p q = Qltb p' q.
Proof.
  intro H. destruct (Qltb p q) eqn:E1, (Qltb p' q) eqn:E2; try reflexivity.
  - apply Qltb_true in E1. apply Qltb_false in E2. lra.
  - apply Qltb_true in E2. apply Qltb_false in E1. lra.
Qed.

Lemma bracket_min_default (rule : TaxRule.t) :
  bracket_min rule
  == match TaxRule.threshold_min rule with Some m => m | None => 0 end.
Proof.
  unfold bracket_min. destruct (TaxRule.threshold_min rule) as [m |].
  - destruct (Qeq_bool m 0) eqn:E; [| reflexivity].
    apply Qeq_bool_iff in E. lra.
  - reflexivity.
Qed.

(** Away from an upper bound of [0], a contribution is the bracket of the
    specification divided by [100]. *)
Lemma contribution_spec_bracket (g : Q) (rule : TaxRule.t) :
  (forall m, TaxRule.threshold_max rule = Some m -> ~ m == 0) ->
  contribution g rule == spec_bracket g rule / 100.
Proof.
  intro Hmax. unfold contribution, spec_bracket.
  pose proof (bracket_min_default rule) as Hmin.
  rewrite (Qltb_compat _ _ g Hmin).
  set (lo := match TaxRule.threshold_min rule with Some m => m | None => 0 end)
    in *.
  destruct (Qltb lo g); [| reflexivity].
  assert (Hcap : capped g (bracket_max rule)
                 == match TaxRule.threshold_max rule with
                    | Some m => Qmin g m
                    | None => g
                    end).
  { unfold bracket_max.
    destruct (TaxRule.threshold_max rule) as [m |]; [| reflexivity].
    destruct (Qeq_bool m 0) eqn:E.
    - apply Qeq_bool_iff in E. destruct (Hmax m eq_refl E).
    - simpl. destruct (Qle_bool g m) eqn:E'.
      + apply Qle_bool_iff in E'. symmetry. apply Q.min_l. exact E'.
      + symmetry. apply Q.min_r.
        destruct (Qlt_le_dec m g) as [H | H]; [lra |].
        apply Qle_bool_iff in H. congruence. }
  rewrite Hcap, Hmin. unfold Qdiv. ring.
Qed.

Lemma total_tax_spec (g : Q) (rules : list TaxRule.t) :
  (forall r m, In r rules -> TaxRule.threshold_max r = Some m -> ~ m == 0) ->
  total_tax g rules == Qsum (map (spec_bracket g) rules) / 100.
Proof.
  unfold total_tax. induction rules as [| r rules IH]; intro H; simpl.
  - reflexivity.
  - rewrite IH by (intros r' m Hin; apply H; right; exact Hin).
    rewrite contribution_spec_bracket
      by (intros m; apply H; left; reflexivity).
    unfold Qdiv. ring.
Qed.

(** The engine returns one hundredth of the tax of the specification's
    formula whenever no active rule has an upper bound of [0]. *)
Lemma compute_tax_hundredth (g : Q) (rules : list TaxRule.t) :
  (forall r m, In r rules -> TaxRule.is_active r = Some true ->
               TaxRule.threshold_max r = Some m -> ~ m == 0) ->
  compute_tax (Fin g) rules =n= Fin (spec_tax g rules / 100).
Proof.
  intro H. destruct (compute_tax_total g rules) as [t [E Ht]].
  apply (num_eq_fin _ _ t (spec_tax g rules / 100) E eq_refl).
  rewrite Ht. apply total_tax_spec.
  intros r m Hin. apply filter_In in Hin. destruct Hin as [Hin Ha].
  apply H; [exact Hin |].
  unfold eq_is_active_true in Ha.
  destruct (TaxRule.is_active r) as [[|] |]; congruence.
Qed.

(* ------------------------------------------------------------------ *)
(** ** Properties of the tax bracket engine *)

(** The loop itself never reads [is_active]: handed a rule that is
    switched off it taxes with it.  Only the query of [fetchTaxRules] keeps
    such rules away from the engine. *)
Lemma calculateTax_reads_no_flag :
  calculateTax [retired_rule] (Fin 1500) =n= Fin (9 # 2)
  /\ compute_tax (Fin 1500) [retired_rule] = Fin 0.
Proof. split; vm_compute; reflexivity. Qed.

(** C1.  The additivity example: for the brackets
    [{rate 0.10, min 0, max 1000}] and [{rate 0.20, min 1000, no max}] and a
    gross of [1500] the formula of the specification gives [200], and the
    engine, which divides every rate by [100], returns [2]. *)
Theorem C1_two_brackets_tax_is_2 :
  compute_tax (Fin 1500) two_brackets =n= Fin 2
  /\ spec_tax 1500 two_brackets == 200
  /\ ~ compute_tax (Fin 1500) two_brackets =n= Fin 200.
Proof.
  repeat split; vm_compute; congruence.
Qed.

(** C5, counterexample.  An active rule with a rate of [0.10], a lower
    bound of [1000] and an upper bound of [500] makes the tax on a gross of
    [1500] negative. *)
Lemma C5_negative_tax :
  compute_tax (Fin 1500) [inverted_rule] =n= Fin (-1 # 2)
  /\ ~ fin_le (Fin 0) (compute_tax (Fin 1500) [inverted_rule]).
Proof.
  split; vm_compute; [reflexivity | intro H; apply H; reflexivity].
Qed.

(** C5, amended.  When every active rule has a rate that is not negative
    and an upper bound that is absent, [0] or not below its lower bound,
    [compute_tax] returns an amount that is not negative; and whatever the
    rules are, it returns exactly [0] when none of them is active, so also
    on the empty list. *)
Theorem C5_compute_tax_nonneg (g : Q) (rules : list TaxRule.t) :
  ((forall r, In r rules -> TaxRule.is_active r = Some true -> rule_sound r) ->
   fin_le (Fin 0) (compute_tax (Fin g) rules))
  /\ ((forall r, In r rules -> TaxRule.is_active r <> Some true) ->
      compute_tax (Fin g) rules = Fin 0)
  /\ compute_tax (Fin g) [] = Fin 0.
Proof.
  split; [| split; [| reflexivity]].
  - intro H. destruct (compute_tax_total g rules) as [t [E Ht]].
    rewrite E. simpl. rewrite Ht.
    apply total_tax_nonneg, active_sound_Forall, H.
  - intro H. unfold compute_tax, fetchTaxRules.
    replace (filter eq_is_active_true rules) with (@nil TaxRule.t);
      [reflexivity |].
    symmetry. apply no_active_rule, H.
Qed.

Ltac sound_rule :=
  split; [vm_compute; discriminate
         | unfold bracket_ordered; vm_compute; try exact I; discriminate].

Lemma C5_compute_tax_nonneg_witness :
  fin_le (Fin 0) (compute_tax (Fin 1500) two_brackets)
  /\ compute_tax (Fin 1500) [retired_rule] = Fin 0.
Proof.
  split.
  - apply (proj1 (C5_compute_tax_nonneg 1500 two_brackets)).
    intros r [<- | [<- | []]] _; sound_rule.
  - apply (proj1 (proj2 (C5_compute_tax_nonneg 1500 [retired_rule]))).
    intros r [<- | []]. discriminate.
Defined.

(** C6, counterexample.  The rates of the rule list are not negative, yet
    the tax on [1500] is below the tax on [1000]: the one rule has its
    upper bound below its lower bound. *)
Lemma C6_tax_decreases :
  0 <= TaxRule.rate inverted_rule
  /\ 0 <= 1000 <= 1500
  /\ compute_tax (Fin 1000) [inverted_rule] =n= Fin 0
  /\ compute_tax (Fin 1500) [inverted_rule] =n= Fin (-1 # 2)
  /\ ~ fin_le (compute_tax (Fin 1000) [inverted_rule])
              (compute_tax (Fin 1500) [inverted_rule]).
Proof.
  repeat split; vm_compute; try discriminate; try reflexivity.
  intro H. apply H. reflexivity.
Qed.

(** C6, amended.  For every rule list whose active rules have a rate that
    is not negative and an upper bound that is absent, [0] or not below the
    lower bound, [compute_tax] is monotone in the gross amount. *)
Theorem C6_compute_tax_monotone (g1 g2 : Q) (rules : list TaxRule.t) :
  (forall r, In r rules -> TaxRule.is_active r = Some true -> rule_sound r) ->
  g1 <= g2 ->
  fin_le (compute_tax (Fin g1) rules) (compute_tax (Fin g2) rules).
Proof.
  intros H Hg.
  destruct (compute_tax_total g1 rules) as [t1 [E1 H1]].
  destruct (compute_tax_total g2 rules) as [t2 [E2 H2]].
  rewrite E1, E2. simpl. rewrite H1, H2.
  apply total_tax_mono; [apply active_sound_Forall, H | exact Hg].
Qed.

Lemma C6_compute_tax_monotone_witness :
  fin_le (compute_tax (Fin 900) two_brackets)
         (compute_tax (Fin 1500) two_brackets).
Proof.
  apply (C6_compute_tax_monotone 900 1500 two_brackets).
  - intros r [<- | [<- | []]] _; sound_rule.
  - vm_compute. discriminate.
Defined.

Lemma contribution_unbounded (g : Q) (rule : TaxRule.t) (m : Q) :
  TaxRule.threshold_max rule = Some m -> m == 0 ->
  contribution g (unbounded rule) = contribution g rule.
Proof.
  intros Hmax Hm. unfold contribution, bracket_max, bracket_min.
  rewrite Hmax. simpl.
  apply Qeq_bool_iff in Hm. rewrite Hm. reflexivity.
Qed.

(** An active rule whose [threshold_max] is [0] is treated as having no
    upper bound: for a gross above its lower bound it adds
    [(g - threshold_min) * (rate / 100)] to the total, and replacing the rule
    by the same rule without upper bound changes no result. *)
Lemma zero_max_is_unbounded (g m : Q) (rule : TaxRule.t)
    (before after : list TaxRule.t) :
  TaxRule.threshold_max rule = Some m -> m == 0 ->
  TaxRule.is_active rule = Some true ->
  bracket_min rule < g ->
  compute_tax (Fin g) [rule]
    =n= Fin ((g - bracket_min rule) * (TaxRule.rate rule / 100))
  /\ compute_tax (Fin g) (before ++ rule :: after)
     =n= compute_tax (Fin g) (before ++ unbounded rule :: after).
Proof.
  intros Hmax Hm Ha Hg.
  assert (Hf : forall r, TaxRule.is_active r = Some true ->
                         eq_is_active_true r = true)
    by (intros r Hr; unfold eq_is_active_true; rewrite Hr; reflexivity).
  split.
  - destruct (compute_tax_total g [rule]) as [t [E Ht]].
    apply (num_eq_fin _ _ t _ E eq_refl). rewrite Ht. simpl.
    rewrite (Hf rule Ha). unfold total_tax. simpl.
    unfold contribution, bracket_max. rewrite Hmax.
    apply Qltb_true in Hg. rewrite Hg.
    apply Qeq_bool_iff in Hm. rewrite Hm. simpl. ring.
  - destruct (compute_tax_total g (before ++ rule :: after)) as [t1 [E1 H1]].
    destruct (compute_tax_total g (before ++ unbounded rule :: after))
      as [t2 [E2 H2]].
    apply (num_eq_fin _ _ t1 t2 E1 E2). rewrite H1, H2.
    rewrite !filter_app. simpl.
    rewrite (Hf rule Ha), (Hf (unbounded rule) Ha).
    rewrite !total_tax_app. unfold total_tax at 2 4. simpl.
    rewrite (contribution_unbounded g rule m Hmax Hm). reflexivity.
Qed.

Lemma zero_max_is_unbounded_example :
  compute_tax (Fin 1500) [zero_max_rule]
    =n= Fin ((1500 - bracket_min zero_max_rule)
             * (TaxRule.rate zero_max_rule / 100))
  /\ compute_tax (Fin 1500) ([retired_rule] ++ zero_max_rule :: two_brackets)
     =n= compute_tax (Fin 1500)
           ([retired_rule] ++ unbounded zero_max_rule :: two_brackets).
Proof.
  apply (zero_max_is_unbounded 1500 0 zero_max_rule
           [retired_rule] two_brackets).
  - reflexivity.
  - reflexivity.
  - reflexivity.
  - vm_compute. reflexivity.
Defined.

(** C9.  The rule [{rate 0.20, min 1000, max 0}] at a gross of [1500]: the
    engine treats the upper bound of [0] as absent, as for the same rule
    without upper bound, but it multiplies the taxable [500] with the rate
    divided by [100] and adds [1], where [(g - threshold_min)] times the rate
    is [100]. *)
Theorem C9_zero_max_contribution_is_1 :
  compute_tax (Fin 1500) [zero_max_rule] =n= Fin 1
  /\ (1500 - 1000) * TaxRule.rate zero_max_rule == 100
  /\ ~ compute_tax (Fin 1500) [zero_max_rule] =n= Fin 100
  /\ compute_tax (Fin 1500) [zero_max_rule]
     =n= compute_tax (Fin 1500) [unbounded zero_max_rule]
  /\ Double.compute_tax 1500%float [zero_max_rule] = 1%float.
Proof.
  repeat split; vm_compute; congruence.
Qed.

(* ------------------------------------------------------------------ *)
(** ** Lemmas on the submit handler *)

(** The record of a submission that reaches the insert, field by field. *)
Lemma onPayrollSubmit_fields (page : Page.t) (values : Values.t)
    (d : PayrollData.t) :
  onPayrollSubmit page values = Some d ->
  exists user_id employee,
    Page.user page = Some user_id
    /\ find_employee page values = Some employee
    /\ PayrollData.created_by d = user_id
    /\ PayrollData.hours_worked d = parseFloat (Values.hours_worked values)
    /\ PayrollData.overtime_hours d
       = parseFloat (str_or (Values.overtime_hours values) "0")
    /\ PayrollData.allowances d
       = parseFloat (str_or (Values.allowances values) "0")
    /\ PayrollData.deductions d
       = parseFloat (str_or (Values.deductions values) "0")
    /\ PayrollData.gross_salary d
       = add match Employee.hourly_rate employee with
             | Some r =>
                 if Qeq_bool r 0 then Fin (Employee.base_salary employee)
                 else add (mul (PayrollData.hours_worked d) (Fin r))
                          (mul (mul (PayrollData.overtime_hours d) (Fin r))
                               (Fin (3 # 2)))
             | None => Fin (Employee.base_salary employee)
             end
             (PayrollData.allowances d)
    /\ PayrollData.tax_deductions d
       = calculateTax (Page.taxRules page) (PayrollData.gross_salary d)
    /\ PayrollData.net_salary d
       = sub (sub (PayrollData.gross_salary d) (PayrollData.tax_deductions d))
             (PayrollData.deductions d).
Proof.
  unfold onPayrollSubmit.
  destruct (Page.user page) as [user_id |]; [| discriminate].
  destruct (find_employee page values) as [employee |]; [| discriminate].
  intro H. injection H as <-. exists user_id, employee.
  cbn [PayrollData.created_by PayrollData.hours_worked
       PayrollData.overtime_hours PayrollData.allowances
       PayrollData.deductions PayrollData.gross_salary
       PayrollData.tax_deductions PayrollData.net_salary].
  repeat (split; [reflexivity |]).
  split; [| split; reflexivity].
  destruct (Employee.hourly_rate employee) as [r |]; [| reflexivity].
  cbn [of_column option_map truthy].
  destruct (Qeq_bool r 0); reflexivity.
Qed.

(** With a signed-in user and an employee under the submitted id, the
    handler reaches the insert. *)
Lemma onPayrollSubmit_inserts (page : Page.t) (values : Values.t)
    (user_id : string) (employee : Employee.t) :
  Page.user page = Some user_id ->
  find_employee page values = Some employee ->
  exists d, onPayrollSubmit page values = Some d.
Proof.
  unfold onPayrollSubmit. intros -> ->. eexists. reflexivity.
Qed.

Lemma handleSubmit_Inserted (page : Page.t) (values : Values.t)
    (d : PayrollData.t) :
  handleSubmit page values = Inserted d <->
  payrollSchema values = true /\ onPayrollSubmit page values = Some d.
Proof.
  unfold handleSubmit. destruct (payrollSchema values).
  - destruct (onPayrollSubmit page values) as [d' |]; split.
    + intro H. injection H as <-. split; reflexivity.
    + intros [_ H]. injection H as <-. reflexivity.
    + discriminate.
    + intros [_ H]. discriminate.
  - split; [discriminate | intros [H _]; discriminate].
Qed.

(** The schema looks at nothing but the emptiness of four strings. *)
Lemma payrollSchema_spec (values : Values.t) :
  payrollSchema values = true <->
  Values.employee_id values <> EmptyString
  /\ Values.pay_period_start values <> EmptyString
  /\ Values.pay_period_end values <> EmptyString
  /\ Values.hours_worked values <> EmptyString.
Proof.
  assert (H : forall s, string_min_1 s = true <-> s <> EmptyString).
  { intros [| c s]; unfold string_min_1; simpl; intuition congruence. }
  unfold payrollSchema. rewrite !andb_true_iff, !H. tauto.
Qed.

Lemma employeeOptions_active (page : Page.t) (e : Employee.t) :
  In e (employeeOptions page) <->
  In e (Page.employees page) /\ Employee.is_active e = Some true.
Proof.
  unfold employeeOptions. rewrite filter_In. unfold truthy_flag.
  destruct (Employee.is_active e) as [[|] |]; intuition congruence.
Qed.

(* ------------------------------------------------------------------ *)
(** ** Properties of the payroll calculator *)

(** C2, counterexample.  The employee [e3] is inactive, and submitting the
    form for [e3] inserts a payroll record all the same, with a gross
    salary of [5000]. *)
Lemma C2_inactive_employee_gets_record :
  find_employee sample_page (october "e3" "160" "0" "0" "0")
  = Some inactive_employee
  /\ Employee.is_active inactive_employee = Some false
  /\ exists d,
       handleSubmit sample_page (october "e3" "160" "0" "0" "0") = Inserted d
       /\ PayrollData.gross_salary d =n= Fin 5000
       /\ PayrollData.net_salary d =n= Fin 4991.
Proof.
  split; [reflexivity | split; [reflexivity |]].
  eexists. split; [vm_compute; reflexivity |].
  split; vm_compute; reflexivity.
Qed.

(** C2, amended.  The calculator has no check of the employee's state: when
    the schema accepts the values, a user is signed in and an employee is
    stored under the submitted id, a payroll record is produced, whether the
    employee is active or not and whether or not an hourly rate is present
    (a base salary always is).  Inactive employees are kept out only of the
    selector of the dialog, whose entries are exactly the active
    employees. *)
Theorem C2_no_employee_state_check (page : Page.t) (values : Values.t)
    (user_id : string) (employee : Employee.t) :
  payrollSchema values = true ->
  Page.user page = Some user_id ->
  find_employee page values = Some employee ->
  (exists d, handleSubmit page values = Inserted d
             /\ PayrollData.employee_id d = Values.employee_id values
             /\ PayrollData.created_by d = user_id)
  /\ (forall e, In e (employeeOptions page) <->
                In e (Page.employees page)
                /\ Employee.is_active e = Some true).
Proof.
  intros Hs Hu He. split; [| apply employeeOptions_active].
  destruct (onPayrollSubmit_inserts page values user_id employee Hu He)
    as [d Hd].
  exists d. split; [apply handleSubmit_Inserted; split; assumption |].
  destruct (onPayrollSubmit_fields page values d Hd)
    as [u [e [Hu' [_ [Hc _]]]]].
  split; [| congruence].
  unfold onPayrollSubmit in Hd. rewrite Hu, He in Hd. injection Hd as <-. reflexivity.
Qed.

Lemma C2_no_employee_state_check_witness :
  (exists d, handleSubmit sample_page (october "e3" "160" "0" "0" "0")
             = Inserted d
             /\ PayrollData.employee_id d = "e3"%string
             /\ PayrollData.created_by d = "u1"%string)
  /\ (forall e, In e (employeeOptions sample_page) <->
                In e (Page.employees sample_page)
                /\ Employee.is_active e = Some true).
Proof.
  apply (C2_no_employee_state_check sample_page
           (october "e3" "160" "0" "0" "0") "u1" inactive_employee);
    reflexivity.
Defined.

(** C8, counterexample.  The schema accepts [-5] hours and [-2] overtime
    hours, and the submission inserts a record for the hourly employee [e2]
    (rate [20]) with these hours and a gross salary of [-160]. *)
Lemma C8_negative_hours_get_record :
  payrollSchema (october "e2" "-5" "-2" "0" "0") = true
  /\ exists d,
       handleSubmit sample_page (october "e2" "-5" "-2" "0" "0") = Inserted d
       /\ PayrollData.hours_worked d =n= Fin (-5)
       /\ PayrollData.overtime_hours d =n= Fin (-2)
       /\ PayrollData.gross_salary d =n= Fin (-160).
Proof.
  split; [reflexivity |].
  eexists. split; [vm_compute; reflexivity |].
  repeat split; vm_compute; reflexivity.
Qed.

(** C8, amended.  The calculator does not reject negative hours: the
    schema asks of [hours_worked] only that it is a non-empty string and of
    [overtime_hours] nothing, and when the values pass it, a user is signed
    in and the employee is found, hours or overtime hours below [0] still
    give a payroll record, which carries the parsed hours as they are. *)
Theorem C8_negative_hours_accepted (page : Page.t) (values : Values.t)
    (user_id : string) (employee : Employee.t) :
  payrollSchema values = true ->
  Page.user page = Some user_id ->
  find_employee page values = Some employee ->
  gt (Fin 0) (parseFloat (Values.hours_worked values)) = true
  \/ gt (Fin 0) (parseFloat (str_or (Values.overtime_hours values) "0")) = true ->
  exists d, handleSubmit page values = Inserted d
            /\ PayrollData.hours_worked d
               = parseFloat (Values.hours_worked values)
            /\ PayrollData.overtime_hours d
               = parseFloat (str_or (Values.overtime_hours values) "0").
Proof.
  intros Hs Hu He _.
  destruct (onPayrollSubmit_inserts page values user_id employee Hu He)
    as [d Hd].
  exists d. split; [apply handleSubmit_Inserted; split; assumption |].
  destruct (onPayrollSubmit_fields page values d Hd)
    as [u [e [_ [_ [_ [Hh [Ho _]]]]]]].
  split; assumption.
Qed.

Lemma C8_negative_hours_accepted_witness :
  exists d, handleSubmit sample_page (october "e2" "-5" "-2" "0" "0")
            = Inserted d
            /\ PayrollData.hours_worked d = parseFloat "-5"
            /\ PayrollData.overtime_hours d = parseFloat "-2".
Proof.
  apply (C8_negative_hours_accepted sample_page
           (october "e2" "-5" "-2" "0" "0") "u1" hourly_employee).
  - reflexivity.
  - reflexivity.
  - reflexivity.
  - left. reflexivity.
Defined.

(** C3, counterexample.  The employee [e4] has an hourly rate, which is
    [0], and a base salary of [5000].  For [160] hours and allowances of
    [500] the hourly formula gives [160 * 0 + 0 * 0 * 1.5 + 500 = 500]; the
    record has a gross salary of [5500]. *)
Lemma C3_zero_rate_not_hourly :
  Employee.hourly_rate zero_rate_employee = Some 0
  /\ exists d,
       handleSubmit sample_page (october "e4" "160" "0" "500" "0") = Inserted d
       /\ PayrollData.gross_salary d =n= Fin 5500
       /\ ~ PayrollData.gross_salary d
            =n= Fin (160 * 0 + 0 * 0 * (3 # 2) + 500).
Proof.
  split; [reflexivity |].
  eexists. split; [vm_compute; reflexivity |].
  split; vm_compute; [reflexivity | discriminate].
Qed.

(** C3, amended.  In every record the calculator produces, the gross salary
    is [hours_worked * hourly_rate + overtime_hours * hourly_rate * 1.5]
    plus the allowances when the employee's hourly rate is present and not
    [0], and the base salary plus the allowances when the hourly rate is
    absent or [0]; the tax of the record is the engine's tax on this gross,
    allowances included. *)
Theorem C3_gross_salary (page : Page.t) (values : Values.t)
    (employee : Employee.t) (d : PayrollData.t) :
  find_employee page values = Some employee ->
  handleSubmit page values = Inserted d ->
  let hours := parseFloat (Values.hours_worked values) in
  let overtime := parseFloat (str_or (Values.overtime_hours values) "0") in
  let allowances := parseFloat (str_or (Values.allowances values) "0") in
  (forall r, Employee.hourly_rate employee = Some r -> ~ r == 0 ->
     PayrollData.gross_salary d
     = add (add (mul hours (Fin r)) (mul (mul overtime (Fin r)) (Fin (3 # 2))))
           allowances)
  /\ (Employee.hourly_rate employee = None
      \/ (exists r, Employee.hourly_rate employee = Some r /\ r == 0) ->
      PayrollData.gross_salary d
      = add (Fin (Employee.base_salary employee)) allowances)
  /\ PayrollData.tax_deductions d
     = calculateTax (Page.taxRules page) (PayrollData.gross_salary d).
Proof.
  intros He Hd hours overtime allowances.
  apply handleSubmit_Inserted in Hd. destruct Hd as [_ Hd].
  destruct (onPayrollSubmit_fields page values d Hd)
    as [u [e [_ [He' [_ [Hh [Ho [Ha [_ [Hg [Ht _]]]]]]]]]]].
  assert (e = employee) by congruence. subst e.
  rewrite Hh, Ho, Ha in Hg. fold hours overtime allowances in Hg.
  split; [| split; [| exact Ht]].
  - intros r Hr Hnz. rewrite Hr in Hg.
    destruct (Qeq_bool r 0) eqn:E; [| exact Hg].
    apply Qeq_bool_iff in E. contradiction.
  - intros [Hn | [r [Hr Hz]]]; rewrite Hg.
    + rewrite Hn. reflexivity.
    + rewrite Hr. apply Qeq_bool_iff in Hz. rewrite Hz. reflexivity.
Qed.

Lemma C3_gross_salary_witness :
  exists d,
    handleSubmit sample_page (october "e2" "160" "10" "500" "200") = Inserted d
    /\ PayrollData.gross_salary d
       = add (add (mul (parseFloat "160") (Fin 20))
                  (mul (mul (parseFloat "10") (Fin 20)) (Fin (3 # 2))))
             (parseFloat "500")
    /\ PayrollData.gross_salary d =n= Fin 4000
    /\ PayrollData.tax_deductions d
       = calculateTax (Page.taxRules sample_page) (PayrollData.gross_salary d).
Proof.
  eexists. split; [vm_compute; reflexivity |].
  match goal with
  | |- PayrollData.gross_salary ?d = _ /\ _ =>
      pose proof (C3_gross_salary sample_page
                    (october "e2" "160" "10" "500" "200")
                    hourly_employee d eq_refl eq_refl) as [H1 [_ H3]]
  end.
  split; [apply (H1 20 eq_refl); vm_compute; discriminate |].
  split; [vm_compute; reflexivity | exact H3].
Defined.

(** C4.  Every record the calculator produces has
    [net_salary = gross_salary - tax_deductions - deductions]; its
    [tax_deductions] is the tax computed on its gross salary, and its
    [deductions] and [allowances] are the parsed inputs.  On finite amounts
    the identity is an identity of rationals. *)
Theorem C4_net_identity (page : Page.t) (values : Values.t)
    (d : PayrollData.t) :
  handleSubmit page values = Inserted d ->
  PayrollData.net_salary d
  = sub (sub (PayrollData.gross_salary d) (PayrollData.tax_deductions d))
        (PayrollData.deductions d)
  /\ PayrollData.tax_deductions d
     = calculateTax (Page.taxRules page) (PayrollData.gross_salary d)
  /\ PayrollData.deductions d
     = parseFloat (str_or (Values.deductions values) "0")
  /\ PayrollData.allowances d
     = parseFloat (str_or (Values.allowances values) "0")
  /\ (forall g t x,
        PayrollData.gross_salary d = Fin g ->
        PayrollData.tax_deductions d = Fin t ->
        PayrollData.deductions d = Fin x ->
        PayrollData.net_salary d =n= Fin (g - t - x)).
Proof.
  intro Hd. apply handleSubmit_Inserted in Hd. destruct Hd as [_ Hd].
  destruct (onPayrollSubmit_fields page values d Hd)
    as [u [e [_ [_ [_ [_ [_ [Ha [Hx [_ [Ht Hn]]]]]]]]]]].
  repeat (split; [assumption |]).
  intros g t x Eg Et Ex. rewrite Hn, Eg, Et, Ex. simpl. ring.
Qed.

Lemma C4_net_identity_witness :
  exists d,
    handleSubmit sample_page (october "e2" "160" "10" "500" "200") = Inserted d
    /\ PayrollData.net_salary d
       = sub (sub (PayrollData.gross_salary d) (PayrollData.tax_deductions d))
             (PayrollData.deductions d)
    /\ PayrollData.net_salary d =n= Fin 3793.
Proof.
  eexists. split; [vm_compute; reflexivity |].
  split.
  - match goal with
    | |- PayrollData.net_salary ?d = _ =>
        exact (proj1 (C4_net_identity sample_page
                        (october "e2" "160" "10" "500" "200") d eq_refl))
    end.
  - vm_compute. reflexivity.
Defined.

(** C10.  For an employee whose hourly rate is present but [0], the
    calculator uses the salaried basis: the gross salary of the record is the
    base salary plus the allowances, and the same form with any other hours
    and overtime hours (the hours not left empty, which the schema refuses)
    gives a record with the same gross salary, tax, deductions, allowances
    and net salary. *)
Theorem C10_zero_hourly_rate_is_salaried (page : Page.t) (values : Values.t)
    (employee : Employee.t) (r : Q) (d : PayrollData.t)
    (hours : string) (overtime : option string) :
  find_employee page values = Some employee ->
  Employee.hourly_rate employee = Some r -> r == 0 ->
  handleSubmit page values = Inserted d ->
  hours <> EmptyString ->
  PayrollData.gross_salary d
  = add (Fin (Employee.base_salary employee))
        (parseFloat (str_or (Values.allowances values) "0"))
  /\ exists d',
       handleSubmit page (with_hours values hours overtime) = Inserted d'
       /\ PayrollData.gross_salary d' = PayrollData.gross_salary d
       /\ PayrollData.tax_deductions d' = PayrollData.tax_deductions d
       /\ PayrollData.deductions d' = PayrollData.deductions d
       /\ PayrollData.allowances d' = PayrollData.allowances d
       /\ PayrollData.net_salary d' = PayrollData.net_salary d.
Proof.
  intros He Hr Hz Hd Hh. apply Qeq_bool_iff in Hz.
  apply handleSubmit_Inserted in Hd. destruct Hd as [Hs Hd].
  destruct (onPayrollSubmit_fields page values d Hd)
    as [u [e [Hu [He' [_ [_ [_ [Ha [Hx [Hg [Ht Hn]]]]]]]]]]].
  assert (e = employee) by congruence. subst e.
  rewrite Hr, Hz in Hg.
  split; [rewrite Hg, Ha; reflexivity |].
  assert (He2 : find_employee page (with_hours values hours overtime)
                = Some employee) by exact He.
  assert (Hs2 : payrollSchema (with_hours values hours overtime) = true).
  { apply payrollSchema_spec in Hs. apply payrollSchema_spec.
    cbn [with_hours Values.employee_id Values.pay_period_start
         Values.pay_period_end Values.hours_worked]. tauto. }
  destruct (onPayrollSubmit_inserts page _ u employee Hu He2) as [d' Hd'].
  exists d'. split; [apply handleSubmit_Inserted; split; assumption |].
  destruct (onPayrollSubmit_fields page _ d' Hd')
    as [u' [e [_ [He3 [_ [_ [_ [Ha' [Hx' [Hg' [Ht' Hn']]]]]]]]]]].
  assert (e = employee) by congruence. subst e.
  rewrite Hr, Hz in Hg'.
  cbn [with_hours Values.allowances Values.deductions] in Ha', Hx'.
  assert (Eg : PayrollData.gross_salary d' = PayrollData.gross_salary d)
    by congruence.
  assert (Et : PayrollData.tax_deductions d' = PayrollData.tax_deductions d)
    by congruence.
  repeat split; congruence.
Qed.

Lemma C10_zero_hourly_rate_is_salaried_witness :
  exists d,
    handleSubmit sample_page (october "e4" "160" "10" "500" "200") = Inserted d
    /\ PayrollData.gross_salary d = add (Fin 5000) (parseFloat "500")
    /\ exists d',
         handleSubmit sample_page
           (with_hours (october "e4" "160" "10" "500" "200") "8" None)
         = Inserted d'
         /\ PayrollData.gross_salary d' = PayrollData.gross_salary d
         /\ PayrollData.tax_deductions d' = PayrollData.tax_deductions d
         /\ PayrollData.deductions d' = PayrollData.deductions d
         /\ PayrollData.allowances d' = PayrollData.allowances d
         /\ PayrollData.net_salary d' = PayrollData.net_salary d.
Proof.
  eexists. split; [vm_compute; reflexivity |].
  apply (C10_zero_hourly_rate_is_salaried sample_page
           (october "e4" "160" "10" "500" "200") zero_rate_employee 0).
  - reflexivity.
  - reflexivity.
  - reflexivity.
  - reflexivity.
  - discriminate.
Defined.

(* ------------------------------------------------------------------ *)
(** ** Further properties of the tax bracket engine *)

(** A gross that is not a number, or that is minus infinity, is above no
    lower bound: the loop adds nothing and the tax is [0], whatever the
    rules. *)
Theorem calculateTax_not_a_number (rules : list TaxRule.t) :
  calculateTax rules NaN = Fin 0
  /\ calculateTax rules NegInfinity = Fin 0.
Proof.
  unfold calculateTax. split.
  - induction rules as [| r rules IH]; [reflexivity |]. simpl.
    unfold calculateTax_step at 2. simpl. exact IH.
  - induction rules as [| r rules IH]; [reflexivity |]. simpl.
    unfold calculateTax_step at 2. rewrite or_else_min. simpl. exact IH.
Qed.

Lemma step_fin_below (g total : Q) (rule : TaxRule.t) :
  g <= bracket_min rule -> step_fin g total rule = total.
Proof.
  intro H. unfold step_fin. apply Qltb_false in H. rewrite H. reflexivity.
Qed.

Lemma calculateTax_below (g : Q) (rules : list TaxRule.t) :
  (forall r, In r rules -> g <= bracket_min r) ->
  calculateTax rules (Fin g) = Fin 0.
Proof.
  intro H. unfold calculateTax. rewrite fold_calculateTax_fin. f_equal.
  generalize 0 as total.
  induction rules as [| r rules IH]; intro total; simpl; [reflexivity |].
  rewrite step_fin_below by (apply H; left; reflexivity).
  apply IH. intros r' Hin. apply H. right. exact Hin.
Qed.

(** A gross at or below the lower bound of every active rule is not taxed:
    [compute_tax] returns exactly [0].  In particular a gross that is [0] or
    negative is never taxed when no active rule has a negative lower
    bound. *)
Theorem compute_tax_below_thresholds (g : Q) (rules : list TaxRule.t) :
  (forall r, In r rules -> TaxRule.is_active r = Some true ->
             g <= bracket_min r) ->
  compute_tax (Fin g) rules = Fin 0.
Proof.
  intro H. unfold compute_tax. apply calculateTax_below.
  intros r Hin. apply fetchTaxRules_In in Hin. destruct Hin as [Hin Ha].
  apply H; assumption.
Qed.

Lemma compute_tax_below_thresholds_witness :
  compute_tax (Fin (-160)) (retired_rule :: two_brackets) = Fin 0.
Proof.
  apply (compute_tax_below_thresholds (-160) (retired_rule :: two_brackets)).
  intros r [<- | [<- | [<- | []]]] Ha; vm_compute; discriminate.
Defined.

(* ------------------------------------------------------------------ *)
(** ** Further properties of the payroll calculator *)

(** *** What the inputs of the form reach *)

(** Deductions are taken after tax: the same form with other deductions
    gives a record with the same hours, allowances, gross salary and tax,
    and its net salary is that same gross salary less that same tax less
    the new deductions. *)
Theorem deductions_leave_tax_alone (page : Page.t) (values : Values.t)
    (d : PayrollData.t) (deductions : option string) :
  handleSubmit page values = Inserted d ->
  exists d',
    handleSubmit page (with_deductions values deductions) = Inserted d'
    /\ PayrollData.deductions d' = parseFloat (str_or deductions "0")
    /\ PayrollData.hours_worked d' = PayrollData.hours_worked d
    /\ PayrollData.overtime_hours d' = PayrollData.overtime_hours d
    /\ PayrollData.allowances d' = PayrollData.allowances d
    /\ PayrollData.gross_salary d' = PayrollData.gross_salary d
    /\ PayrollData.tax_deductions d' = PayrollData.tax_deductions d
    /\ PayrollData.net_salary d'
       = sub (sub (PayrollData.gross_salary d) (PayrollData.tax_deductions d))
             (parseFloat (str_or deductions "0")).
Proof.
  intro Hd. apply handleSubmit_Inserted in Hd. destruct Hd as [Hs Hd].
  destruct (onPayrollSubmit_fields page values d Hd)
    as [u [e [Hu [He [_ [Hh [Ho [Ha [Hx [Hg [Ht Hn]]]]]]]]]]].
  set (values' := with_deductions values deductions).
  assert (He' : find_employee page values' = Some e) by exact He.
  destruct (onPayrollSubmit_inserts page values' u e Hu He') as [d' Hd'].
  exists d'. split; [apply handleSubmit_Inserted; split; [exact Hs | exact Hd'] |].
  destruct (onPayrollSubmit_fields page values' d' Hd')
    as [u' [e' [_ [He'' [_ [Hh' [Ho' [Ha' [Hx' [Hg' [Ht' Hn']]]]]]]]]]].
  assert (e' = e) by congruence. subst e'.
  assert (Eh : PayrollData.hours_worked d' = PayrollData.hours_worked d)
    by (rewrite Hh', Hh; reflexivity).
  assert (Eo : PayrollData.overtime_hours d' = PayrollData.overtime_hours d)
    by (rewrite Ho', Ho; reflexivity).
  assert (Ea : PayrollData.allowances d' = PayrollData.allowances d)
    by (rewrite Ha', Ha; reflexivity).
  assert (Eg : PayrollData.gross_salary d' = PayrollData.gross_salary d)
    by (rewrite Hg', Hg, Eh, Eo, Ea; reflexivity).
  assert (Et : PayrollData.tax_deductions d' = PayrollData.tax_deductions d)
    by (rewrite Ht', Ht, Eg; reflexivity).
  repeat (split; [assumption |]).
  rewrite Hn', Eg, Et, Hx'. reflexivity.
Qed.

Lemma deductions_leave_tax_alone_witness :
  exists d,
    handleSubmit sample_page (october "e2" "160" "10" "500" "200") = Inserted d
    /\ exists d',
         handleSubmit sample_page
           (with_deductions (october "e2" "160" "10" "500" "200")
                            (Some "350.5"%string))
         = Inserted d'
         /\ PayrollData.deductions d' = parseFloat "350.5"
         /\ PayrollData.hours_worked d' = PayrollData.hours_worked d
         /\ PayrollData.overtime_hours d' = PayrollData.overtime_hours d
         /\ PayrollData.allowances d' = PayrollData.allowances d
         /\ PayrollData.gross_salary d' = PayrollData.gross_salary d
         /\ PayrollData.tax_deductions d' = PayrollData.tax_deductions d
         /\ PayrollData.net_salary d'
            = sub (sub (PayrollData.gross_salary d)
                       (PayrollData.tax_deductions d))
                  (parseFloat "350.5").
Proof.
  eexists. split; [vm_compute; reflexivity |].
  apply (deductions_leave_tax_alone sample_page
           (october "e2" "160" "10" "500" "200") _ (Some "350.5"%string)).
  vm_compute. reflexivity.
Defined.

(** Hours that do not parse as a number do not stop the calculator: for an
    employee paid by the hour the record then has a gross and a net salary
    that are not numbers and a tax of [0]. *)
Theorem unparsable_hours_give_nan_pay (page : Page.t) (values : Values.t)
    (employee : Employee.t) (r : Q) (d : PayrollData.t) :
  find_employee page values = Some employee ->
  Employee.hourly_rate employee = Some r -> ~ r == 0 ->
  parseFloat (Values.hours_worked values) = NaN ->
  handleSubmit page values = Inserted d ->
  PayrollData.hours_worked d = NaN
  /\ PayrollData.gross_salary d = NaN
  /\ PayrollData.tax_deductions d = Fin 0
  /\ PayrollData.net_salary d = NaN.
Proof.
  intros He Hr Hnz Ph Hd.
  assert (Hz : Qeq_bool r 0 = false).
  { destruct (Qeq_bool r 0) eqn:E; [| reflexivity].
    apply Qeq_bool_iff in E. contradiction. }
  apply handleSubmit_Inserted in Hd. destruct Hd as [_ Hd].
  destruct (onPayrollSubmit_fields page values d Hd)
    as [u [e [_ [He1 [_ [Hh [_ [_ [_ [Hg [Ht Hn]]]]]]]]]]].
  assert (e = employee) by congruence. subst e.
  rewrite Ph in Hh. rewrite Hr, Hz, Hh in Hg. simpl in Hg.
  rewrite Hg in Ht.
  rewrite (proj1 (calculateTax_not_a_number (Page.taxRules page))) in Ht.
  rewrite Hg, Ht in Hn. simpl in Hn.
  repeat split; assumption.
Qed.

Lemma unparsable_hours_give_nan_pay_witness :
  exists d,
    handleSubmit sample_page (october "e2" "n/a" "10" "500" "200") = Inserted d
    /\ PayrollData.hours_worked d = NaN
    /\ PayrollData.gross_salary d = NaN
    /\ PayrollData.tax_deductions d = Fin 0
    /\ PayrollData.net_salary d = NaN.
Proof.
  eexists. split; [vm_compute; reflexivity |].
  apply (unparsable_hours_give_nan_pay sample_page
           (october "e2" "n/a" "10" "500" "200") hourly_employee 20).
  - reflexivity.
  - reflexivity.
  - vm_compute. discriminate.
  - reflexivity.
  - vm_compute. reflexivity.
Defined.

(* ------------------------------------------------------------------ *)
(** ** Properties of the employee form *)

Lemma or_null_str_or (s : option string) :
  or_null (Some (str_or s "")) = or_null s.
Proof. destruct s as [[| c s] |]; reflexivity. Qed.

(** Opening an employee for editing and submitting the form as it is.  The
    schema accepts the form exactly when the stored employee id, first
    name, last name and hire date are not empty and the stored email passes
    the address test; otherwise nothing is sent.  When it accepts, the
    handler updates that same employee and changes nothing: the mandatory
    texts are written back as they are, an optional text is written back as
    it is unless it is stored as the empty string, which becomes [null], an
    absent hourly rate stays absent, and the two amounts are written back
    with their values, given that printing and parsing them gives them
    back. *)
Theorem edit_then_save_employee (is_email : string -> bool)
    (toString : number -> string) (user : string) (e : EmployeeRow.t) :
  parseFloat (toString (Fin (EmployeeRow.base_salary e)))
    =n= Fin (EmployeeRow.base_salary e) ->
  (forall r, EmployeeRow.hourly_rate e = Some r ->
             parseFloat (toString (Fin r)) =n= Fin r) ->
  let values := handleEditEmployee toString e in
  (employeeSchema is_email values = true <->
   EmployeeRow.employee_id e <> EmptyString
   /\ EmployeeRow.first_name e <> EmptyString
   /\ EmployeeRow.last_name e <> EmptyString
   /\ is_email (EmployeeRow.email e) = true
   /\ EmployeeRow.hire_date e <> EmptyString)
  /\ (employeeSchema is_email values = false ->
      handleEmployeeSubmit is_email (Some user) (Some e) values = None)
  /\ (employeeSchema is_email values = true ->
      exists data,
        handleEmployeeSubmit is_email (Some user) (Some e) values
        = Some (Some (UpdateEmployee (EmployeeRow.id e) data))
        /\ EmployeeData.employee_id data = EmployeeRow.employee_id e
        /\ EmployeeData.first_name data = EmployeeRow.first_name e
        /\ EmployeeData.last_name data = EmployeeRow.last_name e
        /\ EmployeeData.email data = EmployeeRow.email e
        /\ EmployeeData.hire_date data = EmployeeRow.hire_date e
        /\ EmployeeData.position data = or_null (EmployeeRow.position e)
        /\ EmployeeData.department_id data
           = or_null (EmployeeRow.department_id e)
        /\ EmployeeData.bank_account data
           = or_null (EmployeeRow.bank_account e)
        /\ EmployeeData.tax_id data = or_null (EmployeeRow.tax_id e)
        /\ EmployeeData.base_salary data =n= Fin (EmployeeRow.base_salary e)
        /\ match EmployeeRow.hourly_rate e, EmployeeData.hourly_rate data with
           | None, None => True
           | Some r, Some x => x =n= Fin r
           | _, _ => False
           end).
Proof.
  intros Hb Hr values.
  assert (Hmin : forall s, string_min_1 s = true <-> s <> EmptyString).
  { intros [| c s]; unfold string_min_1; simpl; intuition congruence. }
  assert (Hsal : string_min_1 (toString (Fin (EmployeeRow.base_salary e)))
                 = true).
  { apply Hmin. intro E. rewrite E in Hb. exact Hb. }
  split; [| split].
  - unfold employeeSchema, values.
    cbn [handleEditEmployee EmployeeValues.employee_id
         EmployeeValues.first_name EmployeeValues.last_name
         EmployeeValues.email EmployeeValues.hire_date
         EmployeeValues.base_salary].
    rewrite Hsal, andb_true_r, !andb_true_iff, !Hmin. tauto.
  - intro H. unfold handleEmployeeSubmit. rewrite H. reflexivity.
  - intro H. unfold handleEmployeeSubmit. rewrite H.
    eexists. split; [reflexivity |].
    unfold values.
    cbn [handleEditEmployee EmployeeData.employee_id EmployeeData.first_name
         EmployeeData.last_name EmployeeData.email EmployeeData.hire_date
         EmployeeData.position EmployeeData.department_id
         EmployeeData.bank_account EmployeeData.tax_id
         EmployeeData.base_salary EmployeeData.hourly_rate
         EmployeeValues.employee_id EmployeeValues.first_name
         EmployeeValues.last_name EmployeeValues.email
         EmployeeValues.hire_date EmployeeValues.position
         EmployeeValues.department_id EmployeeValues.bank_account
         EmployeeValues.tax_id EmployeeValues.base_salary
         EmployeeValues.hourly_rate].
    rewrite !or_null_str_or.
    repeat (split; [reflexivity |]). split; [exact Hb |].
    destruct (EmployeeRow.hourly_rate e) as [r |]; [| exact I].
    specialize (Hr r eq_refl). cbn [option_map str_or].
    destruct (toString (Fin r)) as [| c s] eqn:E.
    + exact Hr.
    + exact Hr.
Qed.

Lemma edit_then_save_employee_witness :
  exists data,
    handleEmployeeSubmit has_at (Some "u1"%string) (Some sample_row)
                         (handleEditEmployee decimal_toString sample_row)
    = Some (Some (UpdateEmployee "e5" data))
    /\ EmployeeData.employee_id data = "EMP-005"%string
    /\ EmployeeData.first_name data = "Thandi"%string
    /\ EmployeeData.last_name data = "Nkosi"%string
    /\ EmployeeData.email data = "thandi@example.com"%string
    /\ EmployeeData.hire_date data = "2024-02-01"%string
    /\ EmployeeData.position data = None
    /\ EmployeeData.department_id data = None
    /\ EmployeeData.bank_account data = Some "1234567890"%string
    /\ EmployeeData.tax_id data = None
    /\ EmployeeData.base_salary data =n= Fin 32500.50
    /\ match EmployeeData.hourly_rate data with
       | Some x => x =n= Fin 0
       | None => False
       end.
Proof.
  apply (proj2 (proj2 (edit_then_save_employee has_at decimal_toString "u1"
                         sample_row
                         ltac:(vm_compute; reflexivity)
                         ltac:(intros r H; injection H as <-;
                               vm_compute; reflexivity)))).
  vm_compute. reflexivity.
Defined.

(* ------------------------------------------------------------------ *)
(** ** Properties of the budgets page *)

Lemma str_falsy_false (s : option string) :
  str_falsy s = false -> exists v, s = Some v /\ v <> EmptyString.
Proof.
  destruct s as [[| c v] |]; try discriminate.
  intros _. exists (String c v). split; [reflexivity | discriminate].
Qed.

(** Every budget the form writes has exactly one owner: with the type
    "department" the department id is a non-empty string and the project id
    is [null], with the type "project" it is the other way round. *)
Theorem written_budget_has_one_owner (user : option string)
    (editingBudget : option Budget.t) (data : BudgetFormData.t)
    (w : Budgets.write) :
  Budgets.handleSubmit user editingBudget data = Some (Some w) ->
  (exists v, v <> EmptyString
             /\ BudgetFormData.type data = department
             /\ BudgetData.department_id (written w) = Text v
             /\ BudgetData.project_id (written w) = Null)
  \/ (exists v, v <> EmptyString
                /\ BudgetFormData.type data = project
                /\ BudgetData.project_id (written w) = Text v
                /\ BudgetData.department_id (written w) = Null).
Proof.
  unfold Budgets.handleSubmit, Budgets.budgetSchema.
  destruct (Budgets.owner_refine data) eqn:Ho;
    [| rewrite andb_false_r; discriminate].
  destruct (_ && _); [| discriminate].
  unfold Budgets.onSubmit. destruct user as [u |]; [| discriminate].
  intro H.
  assert (Hd : BudgetData.department_id (written w)
               = match BudgetFormData.type data with
                 | department => optional (BudgetFormData.department_id data)
                 | project => Null
                 end
               /\ BudgetData.project_id (written w)
                  = match BudgetFormData.type data with
                    | project => optional (BudgetFormData.project_id data)
                    | department => Null
                    end).
  { destruct editingBudget as [b |]; injection H as <-; split; reflexivity. }
  destruct Hd as [Hd Hp]. rewrite Hd, Hp. clear H Hd Hp.
  unfold Budgets.owner_refine in Ho.
  destruct (BudgetFormData.type data); simpl in Ho.
  - destruct (str_falsy (BudgetFormData.department_id data)) eqn:E;
      [discriminate |].
    destruct (str_falsy_false _ E) as [v [Ev Hv]]. rewrite Ev.
    left. exists v. repeat split. exact Hv.
  - destruct (str_falsy (BudgetFormData.project_id data)) eqn:E;
      [discriminate |].
    destruct (str_falsy_false _ E) as [v [Ev Hv]]. rewrite Ev.
    right. exists v. repeat split. exact Hv.
Qed.

Lemma written_budget_has_one_owner_witness :
  exists w,
    Budgets.handleSubmit (Some "u1"%string) None new_budget_form
    = Some (Some w)
    /\ ((exists v, v <> EmptyString
                   /\ BudgetFormData.type new_budget_form = department
                   /\ BudgetData.department_id (written w) = Text v
                   /\ BudgetData.project_id (written w) = Null)
        \/ (exists v, v <> EmptyString
                      /\ BudgetFormData.type new_budget_form = project
                      /\ BudgetData.project_id (written w) = Text v
                      /\ BudgetData.department_id (written w) = Null)).
Proof.
  eexists. split; [vm_compute; reflexivity |].
  apply (written_budget_has_one_owner (Some "u1"%string) None new_budget_form).
  vm_compute. reflexivity.
Defined.

(** Every budget the form writes has a name that is not empty and at most
    a hundred UTF-16 units long, and an amount that is a number above [0]: a
    positive finite amount or [Infinity], never [NaN], [0] or a negative
    amount. *)
Theorem written_budget_amount_positive (user : option string)
    (editingBudget : option Budget.t) (data : BudgetFormData.t)
    (w : Budgets.write) :
  Budgets.handleSubmit user editingBudget data = Some (Some w) ->
  BudgetData.name (written w) = BudgetFormData.name data
  /\ BudgetData.name (written w) <> EmptyString
  /\ (utf16_length (BudgetData.name (written w)) <= 100)%nat
  /\ BudgetData.amount (written w) = toNumber (BudgetFormData.amount data)
  /\ match BudgetData.amount (written w) with
     | Fin q => 0 < q
     | Infinity => True
     | _ => False
     end.
Proof.
  unfold Budgets.handleSubmit, Budgets.budgetSchema.
  destruct (string_min_1 (BudgetFormData.name data)) eqn:H1;
    [| discriminate].
  destruct (utf16_length (BudgetFormData.name data) <=? 100)%nat eqn:H2;
    [| discriminate].
  destruct (string_min_1 (BudgetFormData.amount data)); [| discriminate].
  destruct (Budgets.amount_refine (BudgetFormData.amount data)) eqn:H3;
    [| discriminate].
  destruct (_ && _); [| discriminate].
  unfold Budgets.onSubmit. destruct user as [u |]; [| discriminate].
  intro H.
  assert (Hw : BudgetData.name (written w) = BudgetFormData.name data
               /\ BudgetData.amount (written w)
                  = toNumber (BudgetFormData.amount data)).
  { destruct editingBudget as [b |]; injection H as <-; split; reflexivity. }
  destruct Hw as [Hn Ha]. rewrite Hn, Ha.
  split; [reflexivity |]. split; [| split].
  - intro E. rewrite E in H1. discriminate.
  - apply Nat.leb_le in H2. exact H2.
  - split; [reflexivity |].
    unfold Budgets.amount_refine in H3.
    destruct (toNumber (BudgetFormData.amount data)) as [| | | q];
      simpl in H3; try discriminate; [exact I |].
    apply Qltb_true in H3. exact H3.
Qed.

Lemma written_budget_amount_positive_witness :
  exists w,
    Budgets.handleSubmit (Some "u1"%string) None new_budget_form
    = Some (Some w)
    /\ BudgetData.name (written w) = "Q2 Marketing"%string
    /\ BudgetData.name (written w) <> EmptyString
    /\ (utf16_length (BudgetData.name (written w)) <= 100)%nat
    /\ BudgetData.amount (written w) = toNumber "12000.50"
    /\ match BudgetData.amount (written w) with
       | Fin q => 0 < q
       | Infinity => True
       | _ => False
       end.
Proof.
  eexists. split; [vm_compute; reflexivity |].
  apply (written_budget_amount_positive (Some "u1"%string) None
           new_budget_form).
  vm_compute. reflexivity.
Defined.



(** *** The utilization of a budget *)





(** For a budget whose amount is [0] the utilization is a division by
    zero: it is [Infinity], shown in red, when something was spent, and
    [NaN] or [-Infinity], shown in green, when nothing or a negative
    amount was spent; it is never shown in orange. *)
Theorem utilization_of_empty_budget (budget : Budget.t) (s : Q) :
  Budget.amount budget == 0 ->
  Budget.actual_expenses budget = Some (Fin s) ->
  (0 < s ->
   Budgets.utilization budget = Infinity
   /\ Budgets.getUtilizationColor (Budgets.utilization budget)
      = "text-red-600"%string)
  /\ (s == 0 ->
      Budgets.utilization budget = NaN
      /\ Budgets.getUtilizationColor (Budgets.utilization budget)
         = "text-green-600"%string)
  /\ (s < 0 ->
      Budgets.utilization budget = NegInfinity
      /\ Budgets.getUtilizationColor (Budgets.utilization budget)
         = "text-green-600"%string).
Proof.
  intros Ha H.
  assert (Ez : Qeq_bool (Budget.amount budget) 0 = true)
    by (apply Qeq_bool_iff; exact Ha).
  unfold Budgets.utilization, Budgets.spent. rewrite H. simpl.
  destruct (Qeq_bool s 0) eqn:Es; simpl; rewrite Ez.
  - apply Qeq_bool_iff in Es.
    repeat split; intros; try lra; reflexivity.
  - assert (Hs : ~ s == 0)
      by (intro Hc; apply Qeq_bool_iff in Hc; congruence).
    rewrite Es. unfold Qltb.
    destruct (Qle_bool s 0) eqn:El; simpl.
    + apply Qle_bool_iff in El.
      repeat split; intros; try lra; reflexivity.
    + assert (0 < s).
      { destruct (Qlt_le_dec 0 s) as [L | G]; [exact L |].
        apply Qle_bool_iff in G. congruence. }
      repeat split; intros; try lra; reflexivity.
Qed.

Lemma utilization_of_empty_budget_witness :
  Budgets.utilization empty_budget = Infinity
  /\ Budgets.getUtilizationColor (Budgets.utilization empty_budget)
     = "text-red-600"%string.
Proof.
  apply (proj1 (utilization_of_empty_budget empty_budget 40
                  (Qeq_refl 0) eq_refl)).
  vm_compute. reflexivity.
Defined.

(* ------------------------------------------------------------------ *)
(** ** The record and the page it comes from *)

(** Every record the calculator inserts belongs to an employee of the
    page's list, the first one stored under the submitted id, and is marked
    as created by the user who is signed in; it carries the id and the two
    dates of the form as they were typed. *)
Theorem inserted_record_has_employee_and_user (page : Page.t)
    (values : Values.t) (d : PayrollData.t) :
  handleSubmit page values = Inserted d ->
  (exists e, In e (Page.employees page)
             /\ Employee.id e = PayrollData.employee_id d
             /\ find_employee page values = Some e)
  /\ Page.user page = Some (PayrollData.created_by d)
  /\ PayrollData.employee_id d = Values.employee_id values
  /\ PayrollData.pay_period_start d = Values.pay_period_start values
  /\ PayrollData.pay_period_end d = Values.pay_period_end values.
Proof.
  intro Hd. apply handleSubmit_Inserted in Hd. destruct Hd as [_ Hd].
  unfold onPayrollSubmit in Hd.
  destruct (Page.user page) as [u |]; [| discriminate].
  destruct (find_employee page values) as [e |] eqn:He; [| discriminate].
  injection Hd as <-. simpl.
  split; [| repeat split].
  exists e. unfold find_employee in He. apply find_some in He.
  destruct He as [Hin Heq]. apply String.eqb_eq in Heq.
  repeat split; assumption.
Qed.

Lemma inserted_record_has_employee_and_user_witness :
  exists d,
    handleSubmit sample_page (october "e2" "160" "10" "500" "200") = Inserted d
    /\ (exists e, In e (Page.employees sample_page)
                  /\ Employee.id e = PayrollData.employee_id d
                  /\ find_employee sample_page
                       (october "e2" "160" "10" "500" "200") = Some e)
    /\ Page.user sample_page = Some (PayrollData.created_by d)
    /\ PayrollData.employee_id d = "e2"%string
    /\ PayrollData.pay_period_start d = "2025-10-01"%string
    /\ PayrollData.pay_period_end d = "2025-10-31"%string.
Proof.
  eexists. split; [vm_compute; reflexivity |].
  apply (inserted_record_has_employee_and_user sample_page
           (october "e2" "160" "10" "500" "200")).
  vm_compute. reflexivity.
Defined.

(* ------------------------------------------------------------------ *)
(** ** The order of the rules on binary64 numbers *)



(** *** The query returns one order *)










